(** * Device inventory: model, validators and view model

    A shallow embedding of [models/Device.ts] (class [DeviceModel]) and of
    [viewmodels/DeviceViewModel.ts] (hook [useDevices]), with the
    properties of the validation, search and create/update/delete logic.

    Conventions of the embedding:
    - a JavaScript string is the list of its UTF-16 code units, so that
      [length] is [String.prototype.length];
    - [Date] values are their time value in milliseconds, an integer;
      the clock read by [new Date()] is an explicit argument [now], and
      the arithmetic on time values is the exact integer one (the
      doubles of the runtime are exact on distances below 2^52 ms);
    - [String.prototype.toLowerCase] depends on the Unicode tables of the
      runtime and is a parameter of the development;
    - the Apollo client (query and mutations) is an abstract collaborator
      whose calls are threaded through an explicit world state. *)

From Stdlib Require Import List Bool Arith NArith ZArith Lia.
From Stdlib Require Import Ascii String DecimalString.
Import ListNotations.

(** ** JavaScript strings *)

Module JS.

Definition codeUnit := N.
Definition jsstring := list codeUnit.

(** An ASCII literal of the source, as code units. *)
Definition lit (s : string) : jsstring :=
  List.map N_of_ascii (list_ascii_of_string s).

Definition string_eqb (a b : jsstring) : bool :=
  if list_eq_dec N.eq_dec a b then true else false.

(** Truthiness of a string: every string but the empty one. *)
Definition truthy (s : jsstring) : bool :=
  match s with [] => false | _ :: _ => true end.

(** WhiteSpace and LineTerminator code points of ECMAScript, the ones
    [String.prototype.trim] strips. *)
Definition isWhiteSpace (c : codeUnit) : bool :=
  ((9 <=? c) && (c <=? 13) || (c =? 32) || (c =? 160) || (c =? 5760)
   || (8192 <=? c) && (c <=? 8202) || (c =? 8232) || (c =? 8233)
   || (c =? 8239) || (c =? 8287) || (c =? 12288) || (c =? 65279))%N.

Fixpoint trimStart (s : jsstring) : jsstring :=
  match s with
  | c :: s' => if isWhiteSpace c then trimStart s' else s
  | [] => []
  end.

Definition trimEnd (s : jsstring) : jsstring := rev (trimStart (rev s)).

Definition trim (s : jsstring) : jsstring := trimEnd (trimStart s).

(** [s.startsWith(t)] and [s.includes(t)]. *)
Fixpoint startsWith (s t : jsstring) {struct t} : bool :=
  match t, s with
  | [], _ => true
  | _ :: _, [] => false
  | y :: t', x :: s' => (x =? y)%N && startsWith s' t'
  end.

Fixpoint includes (s t : jsstring) : bool :=
  startsWith s t
  || match s with
     | [] => false
     | _ :: s' => includes s' t
     end.

(** [String(n)] for an integer [n] (below 10^21 in absolute value, where
    JavaScript switches to exponent notation). *)
Definition numberToString (n : Z) : jsstring :=
  lit (NilZero.string_of_int (Z.to_int n)).

End JS.

Import JS.

(** ** Regular expressions

    The fragment of ECMAScript patterns the validators use: a sequence of
    terms, each an assertion [^] or [$] or a character class under a
    greedy quantifier.  No flag is set: [^] and [$] match at the two ends
    of the input only, classes compare code units. *)

Module RegExp.

(** A class is a union of inclusive ranges of code units. *)
Definition charClass := list (codeUnit * codeUnit).

Definition inClass (cl : charClass) (c : codeUnit) : bool :=
  existsb (fun r => (fst r <=? c) && (c <=? snd r))%N cl.

Inductive term :=
| BOL                                                   (* ^ *)
| EOL                                                   (* $ *)
| Cls (cl : charClass) (min : nat) (max : option nat).  (* cl{min,max} *)

Definition pattern := list term.

Definition one (cl : charClass) : term := Cls cl 1 (Some 1).
Definition plus (cl : charClass) : term := Cls cl 1 None.
Definition between (cl : charClass) (lo hi : nat) : term := Cls cl lo (Some hi).

Definition digit : charClass := [(48, 57)%N].                 (* \d *)
Definition upper : charClass := [(65, 90)%N].                 (* [A-Z] *)
Definition upperDigit : charClass := [(65, 90)%N; (48, 57)%N]. (* [A-Z0-9] *)
Definition dot : charClass := [(46, 46)%N].                   (* \. *)
Definition hyphen : charClass := [(45, 45)%N].                (* - *)

Definition exhausted (max : option nat) : bool :=
  match max with Some O => true | _ => false end.

(** [n] repetitions respect the upper bound of a quantifier. *)
Definition withinMax (n : nat) (max : option nat) : Prop :=
  match max with Some m => n <= m | None => True end.

(** The matcher of a quantified class, in continuation-passing style as
    in the ECMAScript semantics: take one more code unit when the class
    and the upper bound allow it, and fall back to the continuation [k]
    when the rest fails.  [atStart] tells whether the current position is
    the start of the input. *)
Fixpoint rep (cl : charClass) (k : bool -> jsstring -> bool)
    (min : nat) (max : option nat) (atStart : bool) (s : jsstring)
    {struct s} : bool :=
  let stop := (min =? 0)%nat && k atStart s in
  match s with
  | c :: s' =>
      if inClass cl c && negb (exhausted max)
      then rep cl k (pred min) (option_map pred max) false s' || stop
      else stop
  | [] => stop
  end.

Fixpoint matchAt (p : pattern) (atStart : bool) (s : jsstring) : bool :=
  match p with
  | [] => true
  | BOL :: p' => atStart && matchAt p' atStart s
  | EOL :: p' => negb (truthy s) && matchAt p' atStart s
  | Cls cl mn mx :: p' => rep cl (matchAt p') mn mx atStart s
  end.

(** The search loop of [RegExp.prototype.exec]: try every start index
    from [0] on. *)
Fixpoint search (p : pattern) (atStart : bool) (s : jsstring) : bool :=
  matchAt p atStart s
  || match s with
     | [] => false
     | _ :: s' => search p false s'
     end.

(** [pattern.test(s)] *)
Definition test (p : pattern) (s : jsstring) : bool := search p true s.

End RegExp.

(** ** The generated GraphQL types ([graphql/generated])

    Only the shapes of the types are used.  The string enums [DeviceType]
    and [DeviceStatus] are kept as their runtime values, strings; a
    [Maybe] or optional field is an [option], [None] standing for [null]
    and [undefined]; a [DateTime] is the time value it parses to. *)

Module Generated.

Record Device := {
  id : jsstring;
  name : jsstring;
  serialNumber : jsstring;
  type : jsstring;
  status : jsstring;
  lastSeenAt : option Z;
  firmwareVersion : jsstring;
  location : option jsstring;
  createdAt : Z;
  updatedAt : Z
}.

Record CreateDeviceInput := {
  create_name : jsstring;
  create_serialNumber : jsstring;
  create_type : jsstring;
  create_firmwareVersion : jsstring;
  create_location : option jsstring
}.

Record UpdateDeviceInput := {
  update_id : jsstring;
  update_name : option jsstring;
  update_status : option jsstring;
  update_firmwareVersion : option jsstring;
  update_location : option jsstring
}.

End Generated.

(** The members of the string enum [DeviceStatus] that the code names;
    their values are declared in the generated file. *)
Module DeviceStatus.

Record t := {
  Online : jsstring;
  Offline : jsstring;
  Error : jsstring;
  Maintenance : jsstring
}.

(** The four members are different strings. *)
Definition distinct (e : t) : Prop :=
  NoDup [Online e; Offline e; Error e; Maintenance e].

End DeviceStatus.

(** ** The model: [DeviceModel] *)

Module DeviceModel.

Import RegExp.

(** [new DeviceModel(data)] *)
Record t := new { data : Generated.Device }.

Definition id (this : t) : jsstring := Generated.id (data this).
Definition name (this : t) : jsstring := Generated.name (data this).
Definition serialNumber (this : t) : jsstring := Generated.serialNumber (data this).
Definition type (this : t) : jsstring := Generated.type (data this).
Definition status (this : t) : jsstring := Generated.status (data this).
Definition firmwareVersion (this : t) : jsstring := Generated.firmwareVersion (data this).

(** [this.data.lastSeenAt ? new Date(this.data.lastSeenAt) : null] *)
Definition lastSeenAt (this : t) : option Z := Generated.lastSeenAt (data this).

(** [this.data.location || null]: the empty string is falsy. *)
Definition location (this : t) : option jsstring :=
  match Generated.location (data this) with
  | Some l => if truthy l then Some l else None
  | None => None
  end.

(** [get lastSeenFormatted], the clock passed as [now]. *)
Definition lastSeenFormatted (now : Z) (this : t) : jsstring :=
  match lastSeenAt this with
  | None => lit "Never"
  | Some seen =>
      let diff := (now - seen)%Z in
      let minutes := (diff / 60000)%Z in
      let hours := (minutes / 60)%Z in
      let days := (hours / 24)%Z in
      if (days >? 0)%Z then
        numberToString days ++ lit " day"
          ++ (if (days >? 1)%Z then lit "s" else lit "") ++ lit " ago"
      else if (hours >? 0)%Z then
        numberToString hours ++ lit " hour"
          ++ (if (hours >? 1)%Z then lit "s" else lit "") ++ lit " ago"
      else if (minutes >? 0)%Z then
        numberToString minutes ++ lit " minute"
          ++ (if (minutes >? 1)%Z then lit "s" else lit "") ++ lit " ago"
      else lit "Just now"
  end.

(** [static isValidSerialNumber]: [/^[A-Z]{2,4}-\d{3,4}-[A-Z0-9]{1,4}$/] *)
Definition isValidSerialNumber (serialNumber : jsstring) : bool :=
  let pattern :=
    [BOL; between upper 2 4; one hyphen; between digit 3 4; one hyphen;
     between upperDigit 1 4; EOL] in
  RegExp.test pattern serialNumber.

(** [static isValidFirmwareVersion]: [/^\d+\.\d+\.\d+$/] *)
Definition isValidFirmwareVersion (version : jsstring) : bool :=
  let pattern :=
    [BOL; plus digit; one dot; plus digit; one dot; plus digit; EOL] in
  RegExp.test pattern version.

(** [static isValidName] *)
Definition isValidName (name : jsstring) : bool :=
  (3 <=? List.length (trim name))%nat && (List.length (trim name) <=? 50)%nat.

Section Search.

(** [String.prototype.toLowerCase] of the runtime. *)
Variable toLowerCase : jsstring -> jsstring.

(** [matchesSearch(searchTerm)];
    [this.location?.toLowerCase().includes(term) ?? false] is [false]
    when the getter [location] gives [null]. *)
Definition matchesSearch (this : t) (searchTerm : jsstring) : bool :=
  let term := toLowerCase searchTerm in
  includes (toLowerCase (name this)) term
  || includes (toLowerCase (serialNumber this)) term
  || match location this with
     | Some l => includes (toLowerCase l) term
     | None => false
     end
  || includes (toLowerCase (type this)) term.

End Search.

Section Status.

Variable E : DeviceStatus.t.

(** [get isOnline], [get isOffline], [get needsAttention] *)
Definition isOnline (this : t) : bool :=
  string_eqb (status this) (DeviceStatus.Online E).

Definition isOffline (this : t) : bool :=
  string_eqb (status this) (DeviceStatus.Offline E).

Definition needsAttention (this : t) : bool :=
  string_eqb (status this) (DeviceStatus.Error E)
  || string_eqb (status this) (DeviceStatus.Maintenance E).

(** [get statusColor]: the [switch] takes the first case that is
    strictly equal to the status. *)
Definition statusColor (this : t) : jsstring :=
  if string_eqb (status this) (DeviceStatus.Online E) then lit "text-green-600"
  else if string_eqb (status this) (DeviceStatus.Offline E) then lit "text-gray-600"
  else if string_eqb (status this) (DeviceStatus.Error E) then lit "text-red-600"
  else if string_eqb (status this) (DeviceStatus.Maintenance E) then lit "text-yellow-600"
  else lit "text-gray-600".

(** [get statusBgColor] *)
Definition statusBgColor (this : t) : jsstring :=
  if string_eqb (status this) (DeviceStatus.Online E) then lit "bg-green-100"
  else if string_eqb (status this) (DeviceStatus.Offline E) then lit "bg-gray-100"
  else if string_eqb (status this) (DeviceStatus.Error E) then lit "bg-red-100"
  else if string_eqb (status this) (DeviceStatus.Maintenance E) then lit "bg-yellow-100"
  else lit "bg-gray-100".

End Status.

(** [toJSON()] *)
Definition toJSON (this : t) : Generated.Device := data this.

End DeviceModel.

(** ** Promises over an explicit world

    An [async] function is a computation over a world state that either
    returns or throws.  [await] is [bind]; a rejected promise is [Throw]. *)

Module Promise.

(** [new Error(message)] *)
Record Error := mkError { message : jsstring }.

Inductive Result (A : Type) :=
| Ok (a : A)
| Throw (e : Error).

Arguments Ok {A} a.
Arguments Throw {A} e.

Definition Promise (W A : Type) : Type := W -> Result A * W.

Definition ret {W A} (a : A) : Promise W A := fun w => (Ok a, w).

Definition throw {W A} (e : Error) : Promise W A := fun w => (Throw e, w).

Definition bind {W A B} (c : Promise W A) (k : A -> Promise W B) : Promise W B :=
  fun w =>
    match c w with
    | (Ok a, w') => k a w'
    | (Throw e, w') => (Throw e, w')
    end.

(** [try { body } catch (error) { handler }] *)
Definition try_catch {W A} (body : Promise W A) (handler : Error -> Promise W A)
  : Promise W A :=
  fun w =>
    match body w with
    | (Ok a, w') => (Ok a, w')
    | (Throw e, w') => handler e w'
    end.

(** [if (cond) { c }] *)
Definition when {W} (cond : bool) (c : Promise W unit) : Promise W unit :=
  if cond then c else ret tt.

End Promise.

Import Promise.

Declare Scope promise_scope.
Delimit Scope promise_scope with promise.
Notation "x <- c ;; k" := (bind c (fun x => k))
  (at level 61, c at next level, right associativity) : promise_scope.
Notation "c ;; k" := (bind c (fun _ => k))
  (at level 61, right associativity) : promise_scope.

(** ** The view model: [useDevices] *)

Module ViewModel.

Import Generated.

(** The three mutations handed to the Apollo client.  Each call carries
    [refetchQueries: [{ query: GetDevicesDocument }]]; the delete call
    also carries the cache key its [update] callback evicts. *)
Inductive Mutation :=
| CreateDeviceCall (input : CreateDeviceInput)
| UpdateDeviceCall (input : UpdateDeviceInput)
| DeleteDeviceCall (id : jsstring) (evict : jsstring).

Section UseDevices.

Variable toLowerCase : jsstring -> jsstring.

(** The collaborator: the state of the Apollo client, the result of
    [useQuery(GetDevicesDocument)] in it ([data?.devices]), and the
    execution of one mutation, which resolves or rejects. *)
Variable Client : Type.
Variable getDevices : Client -> option (list Device).
Variable execute : Mutation -> Client -> Result unit * Client.

(** The world of the hook: its two [useState] cells, the client, the
    mutations sent to the client so far and what was logged with
    [console.error]. *)
Record World := {
  selectedDeviceId : option jsstring;
  searchTerm : jsstring;
  client : Client;
  calls : list Mutation;
  console : list (jsstring * Error)
}.

Definition setSelectedDeviceId (v : option jsstring) : Promise World unit :=
  fun w =>
    (Ok tt, {| selectedDeviceId := v; searchTerm := searchTerm w;
               client := client w; calls := calls w; console := console w |}).

Definition setSearchTerm (term : jsstring) : Promise World unit :=
  fun w =>
    (Ok tt, {| selectedDeviceId := selectedDeviceId w; searchTerm := term;
               client := client w; calls := calls w; console := console w |}).

Definition console_error (label : jsstring) (e : Error) : Promise World unit :=
  fun w =>
    (Ok tt, {| selectedDeviceId := selectedDeviceId w; searchTerm := searchTerm w;
               client := client w; calls := calls w;
               console := console w ++ [(label, e)] |}).

(** A mutation function returned by [useMutation], called and awaited. *)
Definition mutation (m : Mutation) : Promise World unit :=
  fun w =>
    let (r, c') := execute m (client w) in
    (r, {| selectedDeviceId := selectedDeviceId w; searchTerm := searchTerm w;
           client := c'; calls := calls w ++ [m]; console := console w |}).

(** [(data?.devices || []).map((device) => new DeviceModel(device))] *)
Definition devices (w : World) : list DeviceModel.t :=
  List.map DeviceModel.new
    (match getDevices (client w) with Some ds => ds | None => [] end).

(** [selectedDeviceId ? devices.find(...) || null : null] *)
Definition selectedDevice (w : World) : option DeviceModel.t :=
  match selectedDeviceId w with
  | Some sid =>
      if truthy sid
      then List.find (fun device => string_eqb (DeviceModel.id device) sid) (devices w)
      else None
  | None => None
  end.

(** [searchTerm ? devices.filter(...) : devices] *)
Definition filteredDevices (w : World) : list DeviceModel.t :=
  if truthy (searchTerm w)
  then List.filter
         (fun device => DeviceModel.matchesSearch toLowerCase device (searchTerm w))
         (devices w)
  else devices w.

Definition selectDevice (deviceId : option jsstring) : Promise World unit :=
  setSelectedDeviceId deviceId.

Definition createDevice (input : CreateDeviceInput) : Promise World unit :=
  try_catch
    (when (negb (DeviceModel.isValidName (create_name input)))
       (throw (mkError (lit "Device name must be between 3 and 50 characters"))) ;;
     when (negb (DeviceModel.isValidSerialNumber (create_serialNumber input)))
       (throw (mkError (lit "Invalid serial number format (expected: XX-000-XXX)"))) ;;
     when (negb (DeviceModel.isValidFirmwareVersion (create_firmwareVersion input)))
       (throw (mkError (lit "Invalid firmware version format (expected: X.Y.Z)"))) ;;
     mutation (CreateDeviceCall input))%promise
    (fun error =>
       console_error (lit "Failed to create device:") error ;;
       throw error)%promise.

(** [input.name && !DeviceModel.isValidName(input.name)]: a missing,
    [null] or empty value is falsy and ends the conjunction. *)
Definition present_and_not (valid : jsstring -> bool) (field : option jsstring) : bool :=
  match field with
  | Some v => truthy v && negb (valid v)
  | None => false
  end.

Definition updateDevice (input : UpdateDeviceInput) : Promise World unit :=
  try_catch
    (when (present_and_not DeviceModel.isValidName (update_name input))
       (throw (mkError (lit "Device name must be between 3 and 50 characters"))) ;;
     when (present_and_not DeviceModel.isValidFirmwareVersion (update_firmwareVersion input))
       (throw (mkError (lit "Invalid firmware version format (expected: X.Y.Z)"))) ;;
     mutation (UpdateDeviceCall input))%promise
    (fun error =>
       console_error (lit "Failed to update device:") error ;;
       throw error)%promise.

(** [selectedDeviceId === deviceId] *)
Definition strict_eq (a : option jsstring) (b : jsstring) : bool :=
  match a with
  | Some s => string_eqb s b
  | None => false
  end.

(** The callback closes over the [selectedDeviceId] of the render in
    which it was made, read here before the mutation is awaited. *)
Definition deleteDevice (deviceId : jsstring) : Promise World unit :=
  fun w0 =>
    let selected := selectedDeviceId w0 in
    try_catch
      (mutation (DeleteDeviceCall deviceId (lit "Device:" ++ deviceId)) ;;
       when (strict_eq selected deviceId) (setSelectedDeviceId None))%promise
      (fun error =>
         console_error (lit "Failed to delete device:") error ;;
         throw error)%promise
      w0.

(** [refetch] of [useQuery]: the query is run again in the client. *)
Variable refetch : Client -> Result unit * Client.

Definition refetchQuery : Promise World unit :=
  fun w =>
    let (r, c') := refetch (client w) in
    (r, {| selectedDeviceId := selectedDeviceId w; searchTerm := searchTerm w;
           client := c'; calls := calls w; console := console w |}).

Definition handleRefetch : Promise World unit :=
  try_catch refetchQuery
    (fun error =>
       console_error (lit "Failed to refetch devices:") error ;;
       throw error)%promise.

End UseDevices.

Arguments console_error {Client} label e.
Arguments handleRefetch {Client} refetch.
Arguments selectedDeviceId {Client} w : rename.
Arguments searchTerm {Client} w : rename.
Arguments client {Client} w : rename.
Arguments calls {Client} w : rename.
Arguments console {Client} w : rename.
Arguments devices {Client} getDevices w.
Arguments selectedDevice {Client} getDevices w.
Arguments filteredDevices toLowerCase {Client} getDevices w.
Arguments selectDevice {Client} deviceId.
Arguments setSearchTerm {Client} term.
Arguments createDevice {Client} execute input.
Arguments updateDevice {Client} execute input.
Arguments deleteDevice {Client} execute deviceId.

End ViewModel.

(** ** The badge: [StatusBadge] *)

Module StatusBadge.

(** [getStatusStyles()] *)
Definition getStatusStyles (E : DeviceStatus.t) (status : jsstring) : jsstring :=
  if string_eqb status (DeviceStatus.Online E)
  then lit "bg-green-100 text-green-800 dark:bg-green-900/20 dark:text-green-400"
  else if string_eqb status (DeviceStatus.Offline E)
  then lit "bg-red-100 text-red-800 dark:bg-red-900/20 dark:text-red-400"
  else if string_eqb status (DeviceStatus.Maintenance E)
  then lit "bg-yellow-100 text-yellow-800 dark:bg-yellow-900/20 dark:text-yellow-400"
  else lit "bg-gray-100 text-gray-800 dark:bg-gray-900/20 dark:text-gray-400".

End StatusBadge.

(** ** The table: [DeviceTable]

    What the component renders, without the markup: either the single
    row with the empty message or one row per device. *)

Module DeviceTable.

Record Row := {
  key : jsstring;
  highlighted : bool;
  nameCell : jsstring;
  serialNumberCell : jsstring;
  typeCell : jsstring;
  statusCell : jsstring;
  firmwareCell : jsstring;
  locationCell : jsstring;
  lastSeenCell : jsstring
}.

Inductive Body :=
| EmptyRow (emptyMessage : jsstring)
| Rows (rows : list Row).

(** [selectedDevice?.id === device.id] *)
Definition isSelected (selectedDevice : option DeviceModel.t) (device : DeviceModel.t)
  : bool :=
  match selectedDevice with
  | Some s => string_eqb (DeviceModel.id s) (DeviceModel.id device)
  | None => false
  end.

Definition row (now : Z) (selectedDevice : option DeviceModel.t)
    (device : DeviceModel.t) : Row :=
  {| key := DeviceModel.id device;
     highlighted := isSelected selectedDevice device;
     nameCell := DeviceModel.name device;
     serialNumberCell := DeviceModel.serialNumber device;
     typeCell := DeviceModel.type device;
     statusCell := DeviceModel.status device;
     firmwareCell := DeviceModel.firmwareVersion device;
     (* device.location || '-' *)
     locationCell :=
       match DeviceModel.location device with
       | Some l => if truthy l then l else lit "-"
       | None => lit "-"
       end;
     (* device.lastSeenAt ? device.lastSeenFormatted : 'Never' *)
     lastSeenCell :=
       match DeviceModel.lastSeenAt device with
       | Some _ => DeviceModel.lastSeenFormatted now device
       | None => lit "Never"
       end |}.

(** [devices.length === 0 ? <empty row> : devices.map(...)] *)
Definition body (now : Z) (devices : list DeviceModel.t)
    (selectedDevice : option DeviceModel.t) (emptyMessage : jsstring) : Body :=
  match devices with
  | [] => EmptyRow emptyMessage
  | _ :: _ => Rows (List.map (row now selectedDevice) devices)
  end.

End DeviceTable.

(** ** The form: [DeviceForm] *)

Module DeviceForm.

Import Generated.

Record FormData := {
  form_name : jsstring;
  form_serialNumber : jsstring;
  form_type : jsstring;
  form_status : jsstring;
  form_firmwareVersion : jsstring;
  form_location : jsstring
}.

(** [s || d] for a string [s] that may be [undefined] or [null]. *)
Definition or_string (s : option jsstring) (d : jsstring) : jsstring :=
  match s with
  | Some v => if truthy v then v else d
  | None => d
  end.

(** [s || null] *)
Definition or_null (s : jsstring) : option jsstring :=
  if truthy s then Some s else None.

Section Form.

(** [DeviceType.Sensor] and [DeviceStatus.Online] of the generated file. *)
Variable Sensor : jsstring.
Variable Online : jsstring.

(** The world the form is mounted in, its [errors] state cell and the
    console. *)
Variable W : Type.
Variable setErrors : list (jsstring * jsstring) -> Promise W unit.
Variable console_error : jsstring -> Error -> Promise W unit.

(** The initial [formData]: [device?.field || default]. *)
Definition initialFormData (device : option DeviceModel.t) : FormData :=
  {| form_name := or_string (option_map DeviceModel.name device) (lit "");
     form_serialNumber := or_string (option_map DeviceModel.serialNumber device) (lit "");
     form_type := or_string (option_map DeviceModel.type device) Sensor;
     form_status := or_string (option_map DeviceModel.status device) Online;
     form_firmwareVersion :=
       or_string (option_map DeviceModel.firmwareVersion device) (lit "");
     form_location :=
       or_string (match device with
                  | Some d => DeviceModel.location d
                  | None => None
                  end) (lit "") |}.

(** [newErrors] of [validateForm], its keys in the order they are set. *)
Definition newErrors (device : option DeviceModel.t) (formData : FormData)
  : list (jsstring * jsstring) :=
  (if negb (DeviceModel.isValidName (form_name formData))
   then [(lit "name", lit "Name must be between 3 and 50 characters")]
   else [])
  ++ (if negb (match device with Some _ => true | None => false end)
         && negb (DeviceModel.isValidSerialNumber (form_serialNumber formData))
      then [(lit "serialNumber", lit "Format: XX-000-XXX (e.g., TS-001-A)")]
      else [])
  ++ (if negb (DeviceModel.isValidFirmwareVersion (form_firmwareVersion formData))
      then [(lit "firmwareVersion", lit "Format: X.Y.Z (e.g., 1.0.0)")]
      else []).

(** [validateForm()]: [Object.keys(newErrors).length === 0] *)
Definition validateForm (device : option DeviceModel.t) (formData : FormData)
  : Promise W bool :=
  (setErrors (newErrors device formData) ;;
   ret (List.length (newErrors device formData) =? 0)%nat)%promise.

Definition updateData (device : DeviceModel.t) (formData : FormData)
  : UpdateDeviceInput :=
  {| update_id := DeviceModel.id device;
     update_name := Some (form_name formData);
     update_status := Some (form_status formData);
     update_firmwareVersion := Some (form_firmwareVersion formData);
     update_location := or_null (form_location formData) |}.

Definition createData (formData : FormData) : CreateDeviceInput :=
  {| create_name := form_name formData;
     create_serialNumber := form_serialNumber formData;
     create_type := form_type formData;
     create_firmwareVersion := form_firmwareVersion formData;
     create_location := or_null (form_location formData) |}.

(** [handleSubmit(e)], with the props [device], [onSubmit], [onCancel]
    and the [formData] of the render. *)
Definition handleSubmit (device : option DeviceModel.t)
    (onSubmit : CreateDeviceInput + UpdateDeviceInput -> Promise W unit)
    (onCancel : Promise W unit) (formData : FormData) : Promise W unit :=
  (valid <- validateForm device formData ;;
   if negb valid then ret tt
   else
     try_catch
       ((match device with
         | Some d => onSubmit (inr (updateData d formData))
         | None => onSubmit (inl (createData formData))
         end) ;;
        onCancel)
       (fun error => console_error (lit "Form submission error:") error))%promise.

End Form.

Arguments validateForm {W} setErrors device formData.
Arguments handleSubmit {W} setErrors console_error device onSubmit onCancel formData.

End DeviceForm.

(** ** The view: [DeviceTableView] *)

Module DeviceTableView.

Import Generated ViewModel.

Section View.

Variable toLowerCase : jsstring -> jsstring.
Variable Client : Type.
Variable getDevices : Client -> option (list Device).
Variable execute : Mutation -> Client -> Result unit * Client.

(** The three [useState] cells of the view, the [errors] cell of the
    form it mounts, and the world of [useDevices]. *)
Record ViewWorld := {
  showForm : bool;
  editingDevice : option DeviceModel.t;
  deviceToDelete : option jsstring;
  errors : list (jsstring * jsstring);
  hook : World Client
}.

Definition setShowForm (v : bool) : Promise ViewWorld unit :=
  fun s =>
    (Ok tt, {| showForm := v; editingDevice := editingDevice s;
               deviceToDelete := deviceToDelete s; errors := errors s;
               hook := hook s |}).

Definition setEditingDevice (v : option DeviceModel.t) : Promise ViewWorld unit :=
  fun s =>
    (Ok tt, {| showForm := showForm s; editingDevice := v;
               deviceToDelete := deviceToDelete s; errors := errors s;
               hook := hook s |}).

Definition setDeviceToDelete (v : option jsstring) : Promise ViewWorld unit :=
  fun s =>
    (Ok tt, {| showForm := showForm s; editingDevice := editingDevice s;
               deviceToDelete := v; errors := errors s; hook := hook s |}).

Definition setErrors (v : list (jsstring * jsstring)) : Promise ViewWorld unit :=
  fun s =>
    (Ok tt, {| showForm := showForm s; editingDevice := editingDevice s;
               deviceToDelete := deviceToDelete s; errors := v; hook := hook s |}).

(** A call into the view model. *)
Definition inHook {A} (c : Promise (World Client) A) : Promise ViewWorld A :=
  fun s =>
    let (r, h) := c (hook s) in
    (r, {| showForm := showForm s; editingDevice := editingDevice s;
           deviceToDelete := deviceToDelete s; errors := errors s; hook := h |}).

Definition handleCreate : Promise ViewWorld unit :=
  (setEditingDevice None ;; setShowForm true)%promise.

Definition handleEdit (device : DeviceModel.t) : Promise ViewWorld unit :=
  (setEditingDevice (Some device) ;; setShowForm true)%promise.

(** ['id' in data] tells an update input from a create input. *)
Definition handleFormSubmit (data : CreateDeviceInput + UpdateDeviceInput)
  : Promise ViewWorld unit :=
  try_catch
    ((match data with
      | inr update => inHook (updateDevice execute update)
      | inl create => inHook (createDevice execute create)
      end) ;;
     setShowForm false ;;
     setEditingDevice None)%promise
    (fun error => inHook (console_error (lit "Failed to save device:") error)).

Definition handleDelete (deviceId : jsstring) : Promise ViewWorld unit :=
  try_catch
    (inHook (deleteDevice execute deviceId) ;;
     setDeviceToDelete None)%promise
    (fun error =>
       setDeviceToDelete None ;;
       inHook (console_error (lit "Failed to delete device:") error))%promise.

(** The [onCancel] prop given to the form. *)
Definition closeForm : Promise ViewWorld unit :=
  (setShowForm false ;; setEditingDevice None)%promise.

(** The submit handler of the mounted form: [DeviceForm] with
    [device={editingDevice}], [onSubmit] calling [handleFormSubmit] and
    [onCancel] closing the form. *)
Definition submitForm (formData : DeviceForm.FormData) : Promise ViewWorld unit :=
  fun s =>
    DeviceForm.handleSubmit setErrors
      (fun label e => inHook (console_error label e))
      (editingDevice s) handleFormSubmit closeForm formData s.

(** The [emptyMessage] prop given to the table. *)
Definition emptyMessage (s : ViewWorld) : jsstring :=
  if truthy (searchTerm (hook s))
  then lit "No devices found matching your search."
  else lit "No devices found. Add your first device!".

(** The table of the main screen (the one returned past the loading
    and error screens): [devices={filteredDevices}],
    [selectedDevice={selectedDevice}]. *)
Definition table (now : Z) (s : ViewWorld) : DeviceTable.Body :=
  DeviceTable.body now
    (filteredDevices toLowerCase getDevices (hook s))
    (selectedDevice getDevices (hook s))
    (emptyMessage s).

(** The two counts of the footer,
    [Showing {filteredDevices.length} of {devices.length} devices]. *)
Definition footer (s : ViewWorld) : nat * nat :=
  (List.length (filteredDevices toLowerCase getDevices (hook s)),
   List.length (devices getDevices (hook s))).

End View.

Arguments showForm {Client} v : rename.
Arguments editingDevice {Client} v : rename.
Arguments deviceToDelete {Client} v : rename.
Arguments errors {Client} v : rename.
Arguments hook {Client} v : rename.
Arguments handleFormSubmit {Client} execute data.
Arguments handleDelete {Client} execute deviceId.
Arguments submitForm {Client} execute formData.
Arguments emptyMessage {Client} s.
Arguments table toLowerCase {Client} getDevices now s.
Arguments footer toLowerCase {Client} getDevices s.

End DeviceTableView.

(** ** The properties as the specification words them *)

Module Spec.

(** [t] occurs in [s] as a contiguous run of code units. *)
Definition substring (t s : jsstring) : Prop :=
  exists l r, s = l ++ t ++ r.

(** [l] is [m] with some elements left out, the others in their order. *)
Inductive subsequence {A : Type} : list A -> list A -> Prop :=
| sub_nil : subsequence [] []
| sub_skip x l m : subsequence l m -> subsequence l (x :: m)
| sub_keep x l m : subsequence l m -> subsequence (x :: l) (x :: m).

(** An optional input field is present, not empty, and fails [valid]. *)
Definition rejected (valid : jsstring -> bool) (field : option jsstring) : Prop :=
  exists v, field = Some v /\ v <> [] /\ valid v = false.

(** A non-empty run of decimal digits. *)
Definition digits (s : jsstring) : Prop :=
  s <> [] /\ Forall (fun c => (48 <= c <= 57)%N) s.

(** Three runs of digits separated by two dots, and nothing else. *)
Definition versionTriplet (s : jsstring) : Prop :=
  exists a b c, digits a /\ digits b /\ digits c
                /\ s = a ++ lit "." ++ b ++ lit "." ++ c.

(** [N unit(s) ago], singular exactly when [N] is one. *)
Definition ago (n : Z) (unit : string) : jsstring :=
  numberToString n ++ lit " " ++ lit unit
    ++ (if (n =? 1)%Z then [] else lit "s") ++ lit " ago".

(** The relative time of the specification, by thresholds on the elapsed
    milliseconds. *)
Definition lastSeenFormatted_spec (now : Z) (lastSeenAt : option Z) : jsstring :=
  match lastSeenAt with
  | None => lit "Never"
  | Some seen =>
      let e := (now - seen)%Z in
      if (e <? 60000)%Z then lit "Just now"
      else if (e <? 3600000)%Z then ago (e / 60000) "minute"
      else if (e <? 86400000)%Z then ago (e / 3600000) "hour"
      else ago (e / 86400000) "day"
  end.

(** Between [lo] and [hi] code units, all of them satisfying [P]. *)
Definition run (lo hi : nat) (P : codeUnit -> Prop) (s : jsstring) : Prop :=
  lo <= List.length s <= hi /\ Forall P s.

Definition isUpper (c : codeUnit) : Prop := (65 <= c <= 90)%N.
Definition isDigit (c : codeUnit) : Prop := (48 <= c <= 57)%N.
Definition isUpperOrDigit (c : codeUnit) : Prop := isUpper c \/ isDigit c.

(** Two to four capitals, three or four digits and one to four capitals
    or digits, joined by hyphens. *)
Definition serialShape (s : jsstring) : Prop :=
  exists a b c, run 2 4 isUpper a /\ run 3 4 isDigit b /\ run 1 4 isUpperOrDigit c
                /\ s = a ++ lit "-" ++ b ++ lit "-" ++ c.

(** The texts [lastSeenFormatted] can give for a device that was seen. *)
Definition relativeText (text : jsstring) : Prop :=
  text = lit "Just now"
  \/ (exists n, (1 <= n <= 59)%Z /\ text = ago n "minute")
  \/ (exists n, (1 <= n <= 23)%Z /\ text = ago n "hour")
  \/ (exists n, (1 <= n)%Z /\ text = ago n "day").

End Spec.

(** ** Instances used to run the model on concrete inputs *)

Module Fixtures.

Import Generated ViewModel.

(** A lowering of the ASCII letters, which is what the runtime's
    [toLowerCase] does on ASCII strings. *)
Definition asciiLower (s : jsstring) : jsstring :=
  List.map (fun c => if (65 <=? c)%N && (c <=? 90)%N then (c + 32)%N else c) s.

(** An in-memory collaborator: the client is the list of stored devices;
    create appends, update and delete reject an unknown id. *)
Definition Store := list Device.

Definition known (id0 : jsstring) (st : Store) : bool :=
  existsb (fun d => string_eqb (id d) id0) st.

Definition orElse {A} (o : option A) (d : A) : A :=
  match o with Some a => a | None => d end.

Definition storeExecute (m : Mutation) (st : Store) : Result unit * Store :=
  match m with
  | CreateDeviceCall input =>
      (Ok tt,
       st ++ [{| id := numberToString (Z.of_nat (S (List.length st)));
                 name := create_name input;
                 serialNumber := create_serialNumber input;
                 type := create_type input;
                 status := lit "OFFLINE";
                 lastSeenAt := None;
                 firmwareVersion := create_firmwareVersion input;
                 location := create_location input;
                 createdAt := 0; updatedAt := 0 |}])
  | UpdateDeviceCall input =>
      if known (update_id input) st
      then (Ok tt,
            List.map (fun d =>
              if string_eqb (id d) (update_id input)
              then {| id := id d;
                      name := orElse (update_name input) (name d);
                      serialNumber := serialNumber d;
                      type := type d;
                      status := orElse (update_status input) (status d);
                      lastSeenAt := lastSeenAt d;
                      firmwareVersion := orElse (update_firmwareVersion input) (firmwareVersion d);
                      location := update_location input;
                      createdAt := createdAt d; updatedAt := updatedAt d |}
              else d) st)
      else (Throw (mkError (lit "Device not found")), st)
  | DeleteDeviceCall id0 _ =>
      if known id0 st
      then (Ok tt, List.filter (fun d => negb (string_eqb (id d) id0)) st)
      else (Throw (mkError (lit "Device not found")), st)
  end.

(** [data.devices] of the query: the stored devices, always loaded. *)
Definition storeDevices (st : Store) : option (list Device) := Some st.

Definition sensor : Device :=
  {| id := lit "1"; name := lit "Test Sensor"; serialNumber := lit "TS-001-A";
     type := lit "SENSOR"; status := lit "ONLINE"; lastSeenAt := Some 1700000000000%Z;
     firmwareVersion := lit "1.0.0"; location := Some (lit "Building A");
     createdAt := 1672531200000; updatedAt := 1700000000000 |}.

Definition gateway : Device :=
  {| id := lit "2"; name := lit "Main Gateway"; serialNumber := lit "GW-001-MAIN";
     type := lit "GATEWAY"; status := lit "OFFLINE"; lastSeenAt := None;
     firmwareVersion := lit "2.1.0"; location := None;
     createdAt := 1672531200000; updatedAt := 1700000000000 |}.

Definition createInput (name0 serial version : string) : CreateDeviceInput :=
  {| create_name := lit name0; create_serialNumber := lit serial;
     create_type := lit "SENSOR"; create_firmwareVersion := lit version;
     create_location := None |}.

Definition updateInput (id0 : string) (name0 version : option jsstring)
  : UpdateDeviceInput :=
  {| update_id := lit id0; update_name := name0; update_status := None;
     update_firmwareVersion := version; update_location := None |}.

Definition statusValues : DeviceStatus.t :=
  {| DeviceStatus.Online := lit "ONLINE"; DeviceStatus.Offline := lit "OFFLINE";
     DeviceStatus.Error := lit "ERROR"; DeviceStatus.Maintenance := lit "MAINTENANCE" |}.

Definition formData (name0 serial version location0 : string) : DeviceForm.FormData :=
  {| DeviceForm.form_name := lit name0; DeviceForm.form_serialNumber := lit serial;
     DeviceForm.form_type := lit "SENSOR"; DeviceForm.form_status := lit "ONLINE";
     DeviceForm.form_firmwareVersion := lit version;
     DeviceForm.form_location := lit location0 |}.

Definition world (selected : option jsstring) (term : jsstring) : World Store :=
  {| selectedDeviceId := selected; searchTerm := term;
     client := [sensor; gateway]; calls := []; console := [] |}.

Definition view (editing : option DeviceModel.t) (toDelete : option jsstring)
    (selected : option jsstring) (term : jsstring) : DeviceTableView.ViewWorld Store :=
  {| DeviceTableView.showForm := true; DeviceTableView.editingDevice := editing;
     DeviceTableView.deviceToDelete := toDelete; DeviceTableView.errors := [];
     DeviceTableView.hook := world selected term |}.

End Fixtures.

(** * Properties *)

(** ** Strings *)

Lemma startsWith_spec (t s : jsstring) :
  startsWith s t = true <-> exists r, s = t ++ r.
Proof.
  revert s; induction t as [|y t IH]; intros s; simpl.
  - split; [intros _; now exists s | reflexivity].
  - destruct s as [|x s].
    + split; [discriminate | intros [r H]; discriminate].
    + rewrite andb_true_iff, N.eqb_eq, IH. split.
      * intros [-> [r ->]]. now exists r.
      * intros [r H]. injection H as -> ->. split; [reflexivity | now exists r].
Qed.

Lemma includes_spec (t s : jsstring) :
  includes s t = true <-> Spec.substring t s.
Proof.
  unfold Spec.substring. induction s as [|x s IH].
  - simpl. rewrite orb_false_r, startsWith_spec. split.
    + intros [r H]. now exists [], r.
    + intros [l [r H]]. destruct l; [now exists r | discriminate].
  - cbn [includes]. rewrite orb_true_iff, IH, startsWith_spec. split.
    + intros [[r H] | [l [r H]]].
      * now exists [], r.
      * exists (x :: l), r. now rewrite H.
    + intros [[|y l] [r H]].
      * left. now exists r.
      * right. injection H as _ H. now exists l, r.
Qed.

Lemma includes_nil (s : jsstring) : includes s [] = true.
Proof. destruct s; reflexivity. Qed.

Lemma truthy_false (s : jsstring) : truthy s = false <-> s = [].
Proof. destruct s; simpl; split; congruence. Qed.

Lemma string_eqb_eq (a b : jsstring) : string_eqb a b = true <-> a = b.
Proof.
  unfold string_eqb. destruct (list_eq_dec N.eq_dec a b); split; congruence.
Qed.

Lemma string_eqb_refl (a : jsstring) : string_eqb a a = true.
Proof. now apply string_eqb_eq. Qed.

(** [trimStart] removes a maximal prefix of white space. *)
Lemma trimStart_spec (s : jsstring) :
  exists l, s = l ++ trimStart s
            /\ forallb isWhiteSpace l = true
            /\ (forall c r, trimStart s = c :: r -> isWhiteSpace c = false).
Proof.
  induction s as [|c s (l & Hs & Hl & Hhd)]; simpl.
  - exists []. repeat split; intros; discriminate.
  - destruct (isWhiteSpace c) eqn:E.
    + exists (c :: l). simpl. rewrite E, Hl. repeat split; try assumption.
      now rewrite <- Hs.
    + exists []. repeat split. intros c' r H. now injection H as <- _.
Qed.

(** [trim] leaves the middle of the string between a run of white space
    on each side, the middle neither starting nor ending with one. *)
Lemma trim_spec (s : jsstring) :
  exists l r, s = l ++ trim s ++ r
              /\ forallb isWhiteSpace l = true
              /\ forallb isWhiteSpace r = true
              /\ (forall c m, trim s = c :: m -> isWhiteSpace c = false)
              /\ (forall c m, trim s = m ++ [c] -> isWhiteSpace c = false).
Proof.
  destruct (trimStart_spec s) as (l & Hs & Hl & Hhd).
  destruct (trimStart_spec (rev (trimStart s))) as (r & Hr & Hrws & Hlast).
  exists l, (rev r). unfold trim, trimEnd.
  assert (Hmid : trimStart s = rev (trimStart (rev (trimStart s))) ++ rev r).
  { rewrite <- rev_app_distr, <- Hr. now rewrite rev_involutive. }
  repeat split.
  - now rewrite <- Hmid.
  - assumption.
  - rewrite forallb_forall in *. intros x Hx. apply Hrws. now apply in_rev.
  - intros c m H. rewrite H in Hmid. now apply (Hhd c (m ++ rev r)).
  - intros c m H. apply (Hlast c (rev m)).
    rewrite <- (rev_involutive (trimStart _)), H, rev_app_distr. reflexivity.
Qed.

Lemma trimStart_app_ws (l x : jsstring) :
  forallb isWhiteSpace l = true -> trimStart (l ++ x) = trimStart x.
Proof.
  induction l as [|c l IH]; simpl; [reflexivity |].
  intros H. apply andb_true_iff in H as [-> H]. now apply IH.
Qed.

Lemma trimStart_all_ws (l : jsstring) :
  forallb isWhiteSpace l = true -> trimStart l = [].
Proof.
  intros H. rewrite <- (app_nil_r l). now rewrite trimStart_app_ws.
Qed.

(** The decomposition of [trim_spec] determines the result. *)
Lemma trim_unique (l m r : jsstring) :
  forallb isWhiteSpace l = true ->
  forallb isWhiteSpace r = true ->
  (forall c m', m = c :: m' -> isWhiteSpace c = false) ->
  (forall c m', m = m' ++ [c] -> isWhiteSpace c = false) ->
  trim (l ++ m ++ r) = m.
Proof.
  intros Hl Hr Hfirst Hlast. unfold trim, trimEnd.
  rewrite trimStart_app_ws by assumption.
  destruct m as [|c m'].
  - simpl. now rewrite (trimStart_all_ws r Hr).
  - simpl. rewrite (Hfirst c m' eq_refl).
    change (c :: m' ++ r) with ((c :: m') ++ r).
    rewrite rev_app_distr, trimStart_app_ws
      by (rewrite forallb_forall in *; intros x Hx; apply Hr; now apply in_rev).
    destruct (rev (c :: m')) as [|z t] eqn:E.
    + apply (f_equal (@rev _)) in E. rewrite rev_involutive in E. discriminate.
    + assert (Hm : c :: m' = rev t ++ [z]).
      { rewrite <- (rev_involutive (c :: m')), E. reflexivity. }
      simpl. rewrite (Hlast z (rev t) Hm). simpl. now rewrite Hm.
Qed.

(** ** Regular expressions *)

Section Matcher.

Import RegExp.

(** What a quantified class followed by [k] accepts: a run of the class
    of an allowed length, then whatever [k] accepts. *)
Lemma rep_spec cl k mn mx b s :
  rep cl k mn mx b s = true <->
  exists pre post,
    s = pre ++ post /\ forallb (inClass cl) pre = true
    /\ mn <= List.length pre /\ withinMax (List.length pre) mx
    /\ k (b && negb (truthy pre)) post = true.
Proof.
  revert mn mx b. induction s as [|c s IH]; intros mn mx b.
  - simpl. rewrite andb_true_iff, Nat.eqb_eq. split.
    + intros [-> Hk]. exists [], []. simpl. rewrite andb_true_r.
      repeat split; try lia; try assumption. destruct mx; simpl; lia.
    + intros (pre & post & Hs & _ & Hmn & _ & Hk).
      symmetry in Hs. apply app_eq_nil in Hs as [-> ->]. simpl in *.
      rewrite andb_true_r in Hk. split; [lia | assumption].
  - assert (Hstop : (mn =? 0) && k b (c :: s) = true <->
                    (mn = 0 /\ k b (c :: s) = true)).
    { now rewrite andb_true_iff, Nat.eqb_eq. }
    cbn [rep]. split.
    + intros H.
      assert (Hcases :
        (inClass cl c = true /\ exhausted mx = false
         /\ rep cl k (pred mn) (option_map pred mx) false s = true)
        \/ (mn = 0 /\ k b (c :: s) = true)).
      { destruct (inClass cl c) eqn:Ec, (exhausted mx) eqn:Ex; simpl in H;
          try (right; now apply Hstop).
        apply orb_true_iff in H as [H|H]; [left; auto | right; now apply Hstop]. }
      destruct Hcases as [(Ec & Ex & Hrec) | (-> & Hk)].
      * apply IH in Hrec as (pre & post & -> & Hall & Hmn & Hmx & Hk).
        exists (c :: pre), post. simpl. rewrite Ec, Hall, andb_false_r.
        repeat split; try lia; try assumption.
        destruct mx as [[|m]|]; simpl in *; try discriminate; lia.
      * exists [], (c :: s). simpl. rewrite andb_true_r.
        repeat split; try lia; try assumption. destruct mx; simpl; lia.
    + intros (pre & post & Hs & Hall & Hmn & Hmx & Hk).
      destruct pre as [|c' pre]; simpl in *.
      * subst post. rewrite andb_true_r in Hk.
        assert (Hst : (mn =? 0) && k b (c :: s) = true)
          by (apply Hstop; split; [lia | assumption]).
        rewrite Hst. now destruct (inClass cl c && negb (exhausted mx)); rewrite ?orb_true_r.
      * injection Hs as <- ->. apply andb_true_iff in Hall as [Ec Hall].
        rewrite Ec. rewrite andb_false_r in Hk.
        assert (Ex : exhausted mx = false)
          by (destruct mx as [[|m]|]; simpl in *; [lia | reflexivity | reflexivity]).
        rewrite Ex. simpl. apply orb_true_iff. left. apply IH.
        exists pre, post. rewrite Hall. repeat split; try lia; try assumption.
        destruct mx as [[|m]|]; simpl in *; lia.
Qed.

Lemma search_BOL p s : search (BOL :: p) false s = false.
Proof. induction s as [|c s IH]; simpl; [reflexivity | exact IH]. Qed.

(** A pattern that starts with [^] can only match from index 0. *)
Lemma test_anchored p s : RegExp.test (BOL :: p) s = matchAt p true s.
Proof.
  unfold RegExp.test. destruct s; cbn [search matchAt andb];
    rewrite ?search_BOL; apply orb_false_r.
Qed.

Lemma matchAt_Cls cl mn mx p b s :
  matchAt (Cls cl mn mx :: p) b s = true <->
  exists pre post,
    s = pre ++ post /\ forallb (inClass cl) pre = true
    /\ mn <= List.length pre /\ withinMax (List.length pre) mx
    /\ matchAt p (b && negb (truthy pre)) post = true.
Proof. cbn [matchAt]. apply rep_spec. Qed.

Lemma matchAt_EOL b s : matchAt [EOL] b s = true <-> s = [].
Proof. cbn [matchAt]. rewrite andb_true_r, negb_true_iff. apply truthy_false. Qed.

Lemma digit_run a :
  forallb (inClass digit) a = true /\ 1 <= List.length a <-> Spec.digits a.
Proof.
  unfold Spec.digits. rewrite forallb_forall, Forall_forall. split.
  - intros [H Hlen]. split; [destruct a; simpl in *; [lia | discriminate] |].
    intros c Hc. specialize (H c Hc). unfold inClass, digit in H. simpl in H.
    rewrite orb_false_r, andb_true_iff, !N.leb_le in H. exact H.
  - intros [Hne H]. split; [| destruct a; simpl; [congruence | lia]].
    intros c Hc. specialize (H c Hc). unfold inClass, digit. simpl.
    rewrite orb_false_r, andb_true_iff, !N.leb_le. exact H.
Qed.

Lemma dot_run d :
  forallb (inClass dot) d = true /\ 1 <= List.length d
  /\ withinMax (List.length d) (Some 1) <-> d = lit ".".
Proof.
  split.
  - intros (H & Hlo & Hhi). destruct d as [|c [|c' d]]; simpl in *; try lia.
    rewrite !andb_true_r, orb_false_r, andb_true_iff, !N.leb_le in H.
    change (lit ".") with [46%N]. f_equal. lia.
  - intros ->. simpl. repeat split; lia.
Qed.

End Matcher.

(** ** Validators *)

(** C4 — For all strings s, isValidName(s) is true if and only if the
    length of s once trimmed lies between 3 and 50 inclusive
    ([trim_spec] says what trimming leaves). *)
Theorem isValidName_trimmed_length (s : jsstring) :
  DeviceModel.isValidName s = true
  <-> 3 <= List.length (trim s) <= 50.
Proof.
  unfold DeviceModel.isValidName.
  now rewrite andb_true_iff, !Nat.leb_le.
Qed.

Lemma firmware_pattern_iff (s : jsstring) :
  DeviceModel.isValidFirmwareVersion s = true <-> Spec.versionTriplet s.
Proof.
  unfold DeviceModel.isValidFirmwareVersion, Spec.versionTriplet.
  rewrite test_anchored. unfold RegExp.plus, RegExp.one. split.
  - intros H.
    apply matchAt_Cls in H as (a & s1 & -> & Ha & Hla & _ & H).
    apply matchAt_Cls in H as (d1 & s2 & -> & Hd1 & Hld1 & Hmd1 & H).
    apply matchAt_Cls in H as (b & s3 & -> & Hb & Hlb & _ & H).
    apply matchAt_Cls in H as (d2 & s4 & -> & Hd2 & Hld2 & Hmd2 & H).
    apply matchAt_Cls in H as (c & s5 & -> & Hc & Hlc & _ & H).
    apply matchAt_EOL in H as ->.
    assert (E1 : d1 = lit ".") by (apply dot_run; auto).
    assert (E2 : d2 = lit ".") by (apply dot_run; auto).
    subst d1 d2. exists a, b, c. rewrite app_nil_r.
    repeat split; try (apply digit_run; now split); reflexivity.
  - intros (a & b & c & Ha & Hb & Hc & ->).
    apply digit_run in Ha as [Ha Hla], Hb as [Hb Hlb], Hc as [Hc Hlc].
    pose proof (proj2 (dot_run (lit ".")) eq_refl) as (Hd & Hld & Hmd).
    apply matchAt_Cls. exists a, (lit "." ++ b ++ lit "." ++ c).
    repeat split; try assumption.
    apply matchAt_Cls. exists (lit "."), (b ++ lit "." ++ c).
    repeat split; try assumption.
    apply matchAt_Cls. exists b, (lit "." ++ c).
    repeat split; try assumption.
    apply matchAt_Cls. exists (lit "."), c.
    repeat split; try assumption.
    apply matchAt_Cls. exists c, [].
    repeat split; try assumption. now rewrite app_nil_r.
Qed.

(** C5 — For all strings s, isValidFirmwareVersion(s) is true if and only
    if the whole of s is three runs of decimal digits separated by two
    dots; "1.0", "1.0.0.0", "v1.0.0" and the empty string are rejected. *)
Theorem isValidFirmwareVersion_triplet :
  (forall s, DeviceModel.isValidFirmwareVersion s = true <-> Spec.versionTriplet s)
  /\ DeviceModel.isValidFirmwareVersion (lit "1.0") = false
  /\ DeviceModel.isValidFirmwareVersion (lit "1.0.0.0") = false
  /\ DeviceModel.isValidFirmwareVersion (lit "v1.0.0") = false
  /\ DeviceModel.isValidFirmwareVersion (lit "") = false.
Proof.
  split; [exact firmware_pattern_iff | repeat split; reflexivity].
Qed.

(** ** Relative time *)

Lemma gtb0_false (x : Z) : (x <= 0)%Z -> (x >? 0)%Z = false.
Proof. intros H. rewrite Z.gtb_ltb. apply Z.ltb_ge. exact H. Qed.

Lemma gtb0_true (x : Z) : (0 < x)%Z -> (x >? 0)%Z = true.
Proof. intros H. rewrite Z.gtb_ltb. apply Z.ltb_lt. exact H. Qed.

Lemma plural_suffix (n : Z) (unit : string) :
  (0 < n)%Z ->
  numberToString n ++ lit (" " ++ unit)
    ++ (if (n >? 1)%Z then lit "s" else lit "") ++ lit " ago"
  = Spec.ago n unit.
Proof.
  intros Hn. unfold Spec.ago.
  assert (E : (n >? 1)%Z = negb (n =? 1)%Z).
  { destruct (Z.eqb_spec n 1), (Z.gtb_spec n 1); simpl; try reflexivity; lia. }
  rewrite E. now destruct (n =? 1)%Z.
Qed.

(** C8 — For every device record and current time, lastSeenFormatted is
    "Never" when lastSeenAt is absent and otherwise, with e the elapsed
    milliseconds, "Just now" under one minute, "N minute(s) ago" with
    N = floor(e/60000) under one hour, "N hour(s) ago" with
    N = floor(e/3600000) under one day and "N day(s) ago" with
    N = floor(e/86400000) from then on, singular exactly when N = 1. *)
Theorem lastSeenFormatted_thresholds (now : Z) (this : DeviceModel.t) :
  DeviceModel.lastSeenFormatted now this
  = Spec.lastSeenFormatted_spec now (DeviceModel.lastSeenAt this).
Proof.
  unfold DeviceModel.lastSeenFormatted, Spec.lastSeenFormatted_spec.
  destruct (DeviceModel.lastSeenAt this) as [seen|]; [| reflexivity].
  cbv zeta. set (e := (now - seen)%Z).
  assert (Eh : (e / 60000 / 60 = e / 3600000)%Z)
    by (rewrite Z.div_div by lia; reflexivity).
  assert (Ed : (e / 60000 / 60 / 24 = e / 86400000)%Z)
    by (rewrite !Z.div_div by lia; reflexivity).
  rewrite Ed, Eh.
  destruct (Z.ltb_spec e 60000) as [H1|H1].
  - assert ((e / 86400000 >? 0) = false /\ (e / 3600000 >? 0) = false
            /\ (e / 60000 >? 0) = false)%Z as (-> & -> & ->); [| reflexivity].
    repeat split; apply gtb0_false; Z.div_mod_to_equations; lia.
  - destruct (Z.ltb_spec e 3600000) as [H2|H2].
    + assert ((e / 86400000 >? 0) = false /\ (e / 3600000 >? 0) = false
              /\ (e / 60000 >? 0) = true)%Z as (-> & -> & ->).
      { repeat split; [apply gtb0_false | apply gtb0_false | apply gtb0_true];
          Z.div_mod_to_equations; lia. }
      apply (plural_suffix (e / 60000)%Z "minute"%string). Z.div_mod_to_equations; lia.
    + destruct (Z.ltb_spec e 86400000) as [H3|H3].
      * assert ((e / 86400000 >? 0) = false /\ (e / 3600000 >? 0) = true)%Z
          as (-> & ->).
        { split; [apply gtb0_false | apply gtb0_true];
            Z.div_mod_to_equations; lia. }
        apply (plural_suffix (e / 3600000)%Z "hour"%string). Z.div_mod_to_equations; lia.
      * assert ((e / 86400000 >? 0) = true)%Z as ->.
        { apply gtb0_true. Z.div_mod_to_equations; lia. }
        apply (plural_suffix (e / 86400000)%Z "day"%string). Z.div_mod_to_equations; lia.
Qed.

(** C10 — For every device record whose lastSeenAt lies strictly after
    the current time, lastSeenFormatted is "Just now": the three floored
    quotients are negative and no branch is taken. *)
Theorem lastSeenFormatted_future (now seen : Z) (this : DeviceModel.t) :
  DeviceModel.lastSeenAt this = Some seen ->
  (now < seen)%Z ->
  DeviceModel.lastSeenFormatted now this = lit "Just now"
  /\ ((now - seen) / 60000 < 0)%Z
  /\ ((now - seen) / 60000 / 60 < 0)%Z
  /\ ((now - seen) / 60000 / 60 / 24 < 0)%Z.
Proof.
  intros Hseen Hlt.
  assert (Hm : ((now - seen) / 60000 < 0)%Z) by (Z.div_mod_to_equations; lia).
  assert (Hh : ((now - seen) / 60000 / 60 < 0)%Z) by (Z.div_mod_to_equations; lia).
  assert (Hd : ((now - seen) / 60000 / 60 / 24 < 0)%Z) by (Z.div_mod_to_equations; lia).
  repeat split; try assumption.
  unfold DeviceModel.lastSeenFormatted. rewrite Hseen. cbv zeta.
  now rewrite !gtb0_false by lia.
Qed.

Lemma lastSeenFormatted_future_witness :
  DeviceModel.lastSeenFormatted 1699999999999
    (DeviceModel.new Fixtures.sensor) = lit "Just now".
Proof.
  apply (lastSeenFormatted_future 1699999999999 1700000000000
           (DeviceModel.new Fixtures.sensor)); [reflexivity | lia].
Defined.

(** ** Search *)

Section SearchProperties.

Variable toLowerCase : jsstring -> jsstring.

(** C6 — For every device record and search term, matchesSearch(term) is
    true if and only if the lowercased term is a contiguous substring of
    the lowercased name, serialNumber, type or location, a location that
    is null or empty contributing nothing; the whole term is matched as
    one substring, whichever of the four fields holds it. *)
Theorem matchesSearch_iff (this : DeviceModel.t) (searchTerm : jsstring) :
  DeviceModel.matchesSearch toLowerCase this searchTerm = true
  <-> (Spec.substring (toLowerCase searchTerm) (toLowerCase (DeviceModel.name this))
       \/ Spec.substring (toLowerCase searchTerm)
            (toLowerCase (DeviceModel.serialNumber this))
       \/ Spec.substring (toLowerCase searchTerm) (toLowerCase (DeviceModel.type this))
       \/ exists l, Generated.location (DeviceModel.data this) = Some l /\ l <> []
                    /\ Spec.substring (toLowerCase searchTerm) (toLowerCase l)).
Proof.
  unfold DeviceModel.matchesSearch, DeviceModel.location. cbv zeta.
  rewrite !orb_true_iff, !includes_spec.
  assert (Hloc :
    match
      match Generated.location (DeviceModel.data this) with
      | Some l => if truthy l then Some l else None
      | None => None
      end
    with
    | Some l => includes (toLowerCase l) (toLowerCase searchTerm)
    | None => false
    end = true
    <-> exists l, Generated.location (DeviceModel.data this) = Some l /\ l <> []
                  /\ Spec.substring (toLowerCase searchTerm) (toLowerCase l)).
  { destruct (Generated.location (DeviceModel.data this)) as [l|].
    - destruct l as [|c l]; simpl.
      + split; [discriminate | intros (l' & E & Hne & _); congruence].
      + rewrite includes_spec. split.
        * intros H. exists (c :: l). repeat split; [discriminate | exact H].
        * intros (l' & E & _ & H). now injection E as <-.
    - split; [discriminate | intros (l' & E & _); discriminate]. }
  rewrite Hloc. tauto.
Qed.

(** C9 — For every device record, matchesSearch of the empty string is
    true, the empty string being a substring of the name also when the
    location is absent; filtering by the empty term would keep every
    device, and the view model returns [devices] for it by its own
    branch. *)
Theorem matchesSearch_empty_term :
  toLowerCase [] = [] ->
  (forall this, DeviceModel.matchesSearch toLowerCase this [] = true)
  /\ (forall ds,
        List.filter (fun d => DeviceModel.matchesSearch toLowerCase d []) ds = ds)
  /\ (forall Client getDevices (w : ViewModel.World Client),
        ViewModel.searchTerm w = [] ->
        ViewModel.filteredDevices toLowerCase getDevices w
        = ViewModel.devices getDevices w).
Proof.
  intros Hnil.
  assert (Hall : forall this, DeviceModel.matchesSearch toLowerCase this [] = true).
  { intros this. unfold DeviceModel.matchesSearch. cbv zeta.
    now rewrite Hnil, includes_nil. }
  repeat split.
  - exact Hall.
  - induction ds as [|d ds IH]; simpl; [reflexivity |]. now rewrite Hall, IH.
  - intros Client getDevices w Hterm. unfold ViewModel.filteredDevices.
    now rewrite Hterm.
Qed.

End SearchProperties.

Lemma matchesSearch_empty_term_witness :
  DeviceModel.matchesSearch Fixtures.asciiLower
    (DeviceModel.new Fixtures.gateway) [] = true.
Proof.
  apply (matchesSearch_empty_term Fixtures.asciiLower); reflexivity.
Defined.

Lemma filter_subsequence {A} (f : A -> bool) (l : list A) :
  Spec.subsequence (List.filter f l) l.
Proof.
  induction l as [|x l IH]; simpl; [constructor |].
  destruct (f x); now constructor.
Qed.


(** ** The view model *)

Lemma filter_none {A} (f : A -> bool) (l : list A) :
  (forall x, In x l -> f x = false) -> List.filter f l = [].
Proof.
  induction l as [|x l IH]; intros Hl; simpl; [reflexivity |].
  rewrite (Hl x (or_introl eq_refl)). apply IH. intros y Hy. apply Hl. now right.
Qed.

Lemma filter_unique_match {A} (f : A -> bool) (l1 : list A) (d : A) (l2 : list A) :
  f d = true ->
  (forall x, In x (l1 ++ l2) -> f x = false) ->
  List.filter f (l1 ++ d :: l2) = [d].
Proof.
  intros Hd Hothers. rewrite filter_app. cbn [List.filter]. rewrite Hd.
  rewrite !filter_none; [reflexivity | |];
    intros x Hx; apply Hothers, in_or_app; auto.
Qed.

Section ViewModelProperties.

Import Generated ViewModel.

Variable toLowerCase : jsstring -> jsstring.
Variable Client : Type.
Variable getDevices : Client -> option (list Device).
Variable execute : Mutation -> Client -> Result unit * Client.

(** C7 — For every device list and search term: with the empty term
    filteredDevices is devices itself, in the same order; with a
    non-empty term it is exactly the subsequence of the devices that
    satisfy matchesSearch(searchTerm), in their original order, so a
    term that exactly one record matches gives a list of length 1. *)
Theorem filteredDevices_spec (w : World Client) :
  let matches := fun d => DeviceModel.matchesSearch toLowerCase d (searchTerm w) in
  let filtered := filteredDevices toLowerCase getDevices w in
  (searchTerm w = [] -> filtered = devices getDevices w)
  /\ (searchTerm w <> [] ->
      filtered = List.filter matches (devices getDevices w)
      /\ Spec.subsequence filtered (devices getDevices w)
      /\ (forall d, In d filtered <-> In d (devices getDevices w) /\ matches d = true)
      /\ (forall l1 d l2,
            devices getDevices w = l1 ++ d :: l2 ->
            matches d = true ->
            (forall x, In x (l1 ++ l2) -> matches x = false) ->
            filtered = [d] /\ List.length filtered = 1)).
Proof.
  cbv zeta. unfold filteredDevices. split.
  - now intros ->.
  - intros Hne. destruct (searchTerm w) as [|c term] eqn:E; [congruence |].
    cbn [truthy]. split; [reflexivity |]. split; [apply filter_subsequence |]. split.
    + intros d. apply filter_In.
    + intros l1 d l2 Hds Hd Hothers.
      rewrite Hds, (filter_unique_match _ l1 d l2 Hd Hothers). now split.
Qed.

Lemma present_and_not_iff (valid : jsstring -> bool) (field : option jsstring) :
  present_and_not valid field = true <-> Spec.rejected valid field.
Proof.
  unfold present_and_not, Spec.rejected. destruct field as [[|c v]|]; simpl.
  - split; [discriminate | intros (v & E & Hne & _); congruence].
  - rewrite negb_true_iff. split.
    + intros H. exists (c :: v). repeat split; [discriminate | exact H].
    + intros (v' & E & _ & H). now injection E as <-.
  - split; [discriminate | intros (v & E & _); discriminate].
Qed.

Lemma present_and_not_false (valid : jsstring -> bool) (field : option jsstring) :
  present_and_not valid field = false <-> ~ Spec.rejected valid field.
Proof.
  rewrite <- present_and_not_iff. now destruct (present_and_not valid field).
Qed.

(** C1 — For every create input one of whose name, serialNumber or
    firmwareVersion fails its validator, createDevice throws the error
    whose message names the first failing field and the create mutation
    is not invoked; the mutation is invoked only when the three
    validators accept, and then with the input. *)
Theorem createDevice_validates (input : CreateDeviceInput) (w : World Client) :
  let out := createDevice execute input w in
  let nameOk := DeviceModel.isValidName (create_name input) in
  let serialOk := DeviceModel.isValidSerialNumber (create_serialNumber input) in
  let versionOk := DeviceModel.isValidFirmwareVersion (create_firmwareVersion input) in
  (nameOk = false ->
   fst out = Throw (mkError (lit "Device name must be between 3 and 50 characters"))
   /\ calls (snd out) = calls w /\ client (snd out) = client w)
  /\ (nameOk = true -> serialOk = false ->
      fst out = Throw (mkError (lit "Invalid serial number format (expected: XX-000-XXX)"))
      /\ calls (snd out) = calls w /\ client (snd out) = client w)
  /\ (nameOk = true -> serialOk = true -> versionOk = false ->
      fst out = Throw (mkError (lit "Invalid firmware version format (expected: X.Y.Z)"))
      /\ calls (snd out) = calls w /\ client (snd out) = client w)
  /\ (nameOk = true -> serialOk = true -> versionOk = true ->
      calls (snd out) = calls w ++ [CreateDeviceCall input]
      /\ fst out = fst (execute (CreateDeviceCall input) (client w)))
  /\ (calls (snd out) <> calls w ->
      nameOk = true /\ serialOk = true /\ versionOk = true).
Proof.
  cbv zeta. unfold createDevice, try_catch, bind, when, throw, ret, mutation, console_error.
  destruct (DeviceModel.isValidName (create_name input));
    destruct (DeviceModel.isValidSerialNumber (create_serialNumber input));
    destruct (DeviceModel.isValidFirmwareVersion (create_firmwareVersion input));
    cbn [negb fst snd calls client];
    try (destruct (execute (CreateDeviceCall input) (client w)) as [[[]|e] c']);
    cbn [fst snd calls client];
    repeat split; try discriminate; try reflexivity; try congruence.
Qed.

(** What the two guards of updateDevice do: a name or firmwareVersion
    that is present, not empty and refused by its validator throws the
    error naming the field before the update mutation is sent; when
    neither guard fires the input is handed to the mutation and its
    outcome is the outcome of the call. *)
Lemma updateDevice_validates (input : UpdateDeviceInput) (w : World Client) :
  let out := updateDevice execute input w in
  let nameBad := Spec.rejected DeviceModel.isValidName (update_name input) in
  let versionBad :=
    Spec.rejected DeviceModel.isValidFirmwareVersion (update_firmwareVersion input) in
  (nameBad ->
   fst out = Throw (mkError (lit "Device name must be between 3 and 50 characters"))
   /\ calls (snd out) = calls w /\ client (snd out) = client w)
  /\ (~ nameBad -> versionBad ->
      fst out = Throw (mkError (lit "Invalid firmware version format (expected: X.Y.Z)"))
      /\ calls (snd out) = calls w /\ client (snd out) = client w)
  /\ (~ nameBad -> ~ versionBad ->
      calls (snd out) = calls w ++ [UpdateDeviceCall input]
      /\ fst out = fst (execute (UpdateDeviceCall input) (client w))).
Proof.
  cbv zeta.
  assert (Hmain :
    (Spec.rejected DeviceModel.isValidName (update_name input) ->
     fst (updateDevice execute input w)
     = Throw (mkError (lit "Device name must be between 3 and 50 characters"))
     /\ calls (snd (updateDevice execute input w)) = calls w
     /\ client (snd (updateDevice execute input w)) = client w)
    /\ (~ Spec.rejected DeviceModel.isValidName (update_name input) ->
        Spec.rejected DeviceModel.isValidFirmwareVersion (update_firmwareVersion input) ->
        fst (updateDevice execute input w)
        = Throw (mkError (lit "Invalid firmware version format (expected: X.Y.Z)"))
        /\ calls (snd (updateDevice execute input w)) = calls w
        /\ client (snd (updateDevice execute input w)) = client w)
    /\ (~ Spec.rejected DeviceModel.isValidName (update_name input) ->
        ~ Spec.rejected DeviceModel.isValidFirmwareVersion (update_firmwareVersion input) ->
        calls (snd (updateDevice execute input w)) = calls w ++ [UpdateDeviceCall input]
        /\ fst (updateDevice execute input w)
           = fst (execute (UpdateDeviceCall input) (client w)))).
  { rewrite <- !present_and_not_iff.
    unfold updateDevice, try_catch, bind, when, throw, ret, mutation, console_error.
    destruct (present_and_not DeviceModel.isValidName (update_name input));
      destruct (present_and_not DeviceModel.isValidFirmwareVersion
                  (update_firmwareVersion input));
      cbn [fst snd calls client];
      try (destruct (execute (UpdateDeviceCall input) (client w)) as [[[]|e] c']);
      cbn [fst snd calls client];
      repeat split; try discriminate; try reflexivity; try congruence. }
  exact Hmain.
Qed.

(** C2 — For every id: when the delete mutation succeeds and
    selectedDeviceId is the id at the time of the call, selectedDeviceId
    is null afterwards; when the mutation fails, the error reaches the
    caller and selectedDeviceId is left as it was, also when it is the
    id. *)
Theorem deleteDevice_selection (deviceId : jsstring) (w : World Client) :
  let out := deleteDevice execute deviceId w in
  let sent := DeleteDeviceCall deviceId (lit "Device:" ++ deviceId) in
  calls (snd out) = calls w ++ [sent]
  /\ (fst (execute sent (client w)) = Ok tt ->
      fst out = Ok tt
      /\ (selectedDeviceId w = Some deviceId -> selectedDeviceId (snd out) = None))
  /\ (forall e, fst (execute sent (client w)) = Throw e ->
      fst out = Throw e /\ selectedDeviceId (snd out) = selectedDeviceId w).
Proof.
  cbv zeta.
  unfold deleteDevice, try_catch, bind, when, throw, ret, mutation, console_error,
    setSelectedDeviceId, strict_eq.
  destruct (execute (DeleteDeviceCall deviceId (lit "Device:" ++ deviceId)) (client w))
    as [[[]|e] c'] eqn:E; cbn [fst snd].
  - destruct (selectedDeviceId w) as [sid|] eqn:Es;
      [destruct (string_eqb sid deviceId) eqn:Eq |];
      cbn [fst snd calls selectedDeviceId];
      repeat (repeat match goal with |- _ /\ _ => split end; intros);
      try discriminate; try reflexivity.
    match goal with H : Some _ = Some _ |- _ => injection H as -> end.
    rewrite string_eqb_refl in Eq. discriminate.
  - cbn [fst snd calls selectedDeviceId].
    repeat (repeat match goal with |- _ /\ _ => split end; intros);
      try discriminate; try reflexivity; congruence.
Qed.

End ViewModelProperties.

(** ** The view model on the in-memory collaborator *)

Section Runs.

Import Generated ViewModel Fixtures.

Lemma createDevice_validates_witness :
  let out := createDevice storeExecute (createInput "ab" "TS-001-A" "1.0.0")
               (world None []) in
  fst out = Throw (mkError (lit "Device name must be between 3 and 50 characters"))
  /\ calls (snd out) = [] /\ client (snd out) = [sensor; gateway].
Proof.
  apply (createDevice_validates Store storeExecute
           (createInput "ab" "TS-001-A" "1.0.0") (world None [])).
  reflexivity.
Defined.

Example createDevice_accepts :
  let input := createInput "New Camera" "CAM-001-A" "1.0.0" in
  let out := createDevice storeExecute input (world None []) in
  fst out = Ok tt /\ calls (snd out) = [CreateDeviceCall input]
  /\ List.length (client (snd out)) = 3.
Proof. repeat split. Qed.

Example createDevice_rejects_version :
  let out := createDevice storeExecute (createInput "New Camera" "CAM-001-A" "1.0")
               (world None []) in
  fst out = Throw (mkError (lit "Invalid firmware version format (expected: X.Y.Z)"))
  /\ calls (snd out) = [].
Proof. repeat split. Qed.

Lemma updateDevice_validates_witness :
  let out := updateDevice storeExecute (updateInput "1" (Some (lit "A")) None)
               (world None []) in
  fst out = Throw (mkError (lit "Device name must be between 3 and 50 characters"))
  /\ calls (snd out) = [] /\ client (snd out) = [sensor; gateway].
Proof.
  apply (updateDevice_validates Store storeExecute
           (updateInput "1" (Some (lit "A")) None) (world None [])).
  exists (lit "A"). repeat split. discriminate.
Defined.

(** C3 — the code at the failing input.  The claim asks that an update
    whose name is present but invalid, such as the explicit empty
    string, throws the validation error and does not reach the
    collaborator.  At the input with id 1 and the empty name, which
    [isValidName] rejects, the guard [input.name && ...] takes the empty
    string for an absent field: updateDevice resolves, the update
    mutation is sent with the input and a device named by the empty
    string is stored. *)
Lemma updateDevice_empty_name_reaches_collaborator :
  let input := updateInput "1" (Some []) None in
  let out := updateDevice storeExecute input (world None []) in
  update_name input = Some []
  /\ DeviceModel.isValidName [] = false
  /\ fst out = Ok tt
  /\ calls (snd out) = [UpdateDeviceCall input]
  /\ List.map name (client (snd out)) = [[]; lit "Main Gateway"].
Proof. repeat split. Qed.

(** The sibling paths refuse the empty name: createDevice throws the
    name error without a call, and the form reports the name field. *)
Example empty_name_refused_elsewhere :
  let out := createDevice storeExecute (createInput "" "TS-001-A" "1.0.0")
               (world None []) in
  fst out = Throw (mkError (lit "Device name must be between 3 and 50 characters"))
  /\ calls (snd out) = []
  /\ List.map fst
       (DeviceForm.newErrors (Some (DeviceModel.new sensor))
          (formData "" "TS-001-A" "1.0.0" ""))
     = [lit "name"].
Proof. repeat split. Qed.

Lemma deleteDevice_selection_witness :
  selectedDeviceId
    (snd (deleteDevice storeExecute (lit "1") (world (Some (lit "1")) []))) = None
  /\ (fst (deleteDevice storeExecute (lit "9") (world (Some (lit "9")) []))
      = Throw (mkError (lit "Device not found"))
      /\ selectedDeviceId
           (snd (deleteDevice storeExecute (lit "9") (world (Some (lit "9")) [])))
         = Some (lit "9")).
Proof.
  split.
  - apply (deleteDevice_selection Store storeExecute (lit "1") (world (Some (lit "1")) []));
      reflexivity.
  - apply (deleteDevice_selection Store storeExecute (lit "9") (world (Some (lit "9")) [])).
    reflexivity.
Defined.

Lemma filteredDevices_spec_witness :
  filteredDevices asciiLower storeDevices (world None []) = List.map DeviceModel.new [sensor; gateway]
  /\ filteredDevices asciiLower storeDevices (world None (lit "GATE"))
     = [DeviceModel.new gateway].
Proof.
  split.
  - apply (proj1 (filteredDevices_spec asciiLower Store storeDevices (world None []))).
    reflexivity.
  - destruct (proj2 (filteredDevices_spec asciiLower Store storeDevices
                       (world None (lit "GATE"))) ltac:(discriminate))
      as (_ & _ & _ & Hone).
    apply (Hone [DeviceModel.new sensor] (DeviceModel.new gateway) []).
    + reflexivity.
    + reflexivity.
    + intros x [<- | []]. reflexivity.
Defined.

End Runs.

(** ** The examples of the specification *)

Example lastSeenFormatted_examples :
  let now := 1700000000000%Z in
  let seenAt t := DeviceModel.new
    {| Generated.id := lit "1"; Generated.name := lit "Test Sensor";
       Generated.serialNumber := lit "TS-001-A"; Generated.type := lit "SENSOR";
       Generated.status := lit "ONLINE"; Generated.lastSeenAt := t;
       Generated.firmwareVersion := lit "1.0.0"; Generated.location := None;
       Generated.createdAt := 0; Generated.updatedAt := 0 |} in
  List.map (DeviceModel.lastSeenFormatted now)
    [seenAt (Some now); seenAt (Some (now - 30 * 60000)%Z);
     seenAt (Some (now - 2 * 3600000)%Z); seenAt (Some (now - 3 * 86400000)%Z);
     seenAt None; seenAt (Some (now - 60000)%Z); seenAt (Some (now - 3600000)%Z);
     seenAt (Some (now - 86400000)%Z)]
  = [lit "Just now"; lit "30 minutes ago"; lit "2 hours ago"; lit "3 days ago";
     lit "Never"; lit "1 minute ago"; lit "1 hour ago"; lit "1 day ago"].
Proof. reflexivity. Qed.

Example matchesSearch_examples :
  let sensor := DeviceModel.new Fixtures.sensor in
  let gateway := DeviceModel.new Fixtures.gateway in
  List.map (DeviceModel.matchesSearch Fixtures.asciiLower sensor)
    [lit "TEST SENSOR"; lit "ts-001"; lit "building"; lit "sensor"; lit "nothing"]
  = [true; true; true; true; false]
  /\ DeviceModel.matchesSearch Fixtures.asciiLower gateway (lit "building") = false.
Proof. split; reflexivity. Qed.

Example serial_examples :
  List.map DeviceModel.isValidSerialNumber
    [lit "TS-001-A"; lit "GW-001-MAIN"; lit "invalid"; lit "TS001A"; lit "TS-1-A"; lit ""]
  = [true; true; false; false; false; false].
Proof. reflexivity. Qed.

Example firmware_examples :
  List.map DeviceModel.isValidFirmwareVersion
    [lit "1.0.0"; lit "10.20.30"; lit "0.0.1"; lit "1.0.0 "; lit "1..0"]
  = [true; true; true; false; false].
Proof. reflexivity. Qed.

Example name_examples :
  List.map DeviceModel.isValidName
    [lit "ab"; lit "abc"; lit "  ab  "; lit " abc "; lit ""]
  = [false; true; false; true; false].
Proof. reflexivity. Qed.

(** * Further properties of the model *)

Section SerialNumber.

Import RegExp.

Lemma inClass_upper c : inClass upper c = true <-> Spec.isUpper c.
Proof.
  unfold inClass, upper, Spec.isUpper. simpl.
  now rewrite orb_false_r, andb_true_iff, !N.leb_le.
Qed.

Lemma inClass_digit c : inClass digit c = true <-> Spec.isDigit c.
Proof.
  unfold inClass, digit, Spec.isDigit. simpl.
  now rewrite orb_false_r, andb_true_iff, !N.leb_le.
Qed.

Lemma inClass_upperDigit c : inClass upperDigit c = true <-> Spec.isUpperOrDigit c.
Proof.
  unfold inClass, upperDigit, Spec.isUpperOrDigit, Spec.isUpper, Spec.isDigit. simpl.
  now rewrite orb_false_r, orb_true_iff, !andb_true_iff, !N.leb_le.
Qed.

Lemma class_run cl (P : codeUnit -> Prop) lo hi a :
  (forall c, inClass cl c = true <-> P c) ->
  (forallb (inClass cl) a = true /\ lo <= List.length a
   /\ withinMax (List.length a) (Some hi))
  <-> Spec.run lo hi P a.
Proof.
  intros HP. unfold Spec.run, withinMax. rewrite forallb_forall, Forall_forall.
  split.
  - intros (H & Hlo & Hhi). split; [lia |]. intros c Hc. now apply HP, H.
  - intros ([Hlo Hhi] & H). repeat split; try lia. intros c Hc. now apply HP, H.
Qed.

Lemma hyphen_run d :
  forallb (inClass hyphen) d = true /\ 1 <= List.length d
  /\ withinMax (List.length d) (Some 1) <-> d = lit "-".
Proof.
  split.
  - intros (H & Hlo & Hhi). destruct d as [|c [|c' d]]; simpl in *; try lia.
    rewrite !andb_true_r, orb_false_r, andb_true_iff, !N.leb_le in H.
    change (lit "-") with [45%N]. f_equal. lia.
  - intros ->. simpl. repeat split; lia.
Qed.

Lemma serial_pattern_iff (s : jsstring) :
  DeviceModel.isValidSerialNumber s = true <-> Spec.serialShape s.
Proof.
  unfold DeviceModel.isValidSerialNumber, Spec.serialShape.
  rewrite test_anchored. unfold between, one. split.
  - intros H.
    apply matchAt_Cls in H as (a & s1 & -> & Ha & Hla & Hma & H).
    apply matchAt_Cls in H as (d1 & s2 & -> & Hd1 & Hld1 & Hmd1 & H).
    apply matchAt_Cls in H as (b & s3 & -> & Hb & Hlb & Hmb & H).
    apply matchAt_Cls in H as (d2 & s4 & -> & Hd2 & Hld2 & Hmd2 & H).
    apply matchAt_Cls in H as (c & s5 & -> & Hc & Hlc & Hmc & H).
    apply matchAt_EOL in H as ->.
    assert (E1 : d1 = lit "-") by (apply hyphen_run; auto).
    assert (E2 : d2 = lit "-") by (apply hyphen_run; auto).
    subst d1 d2. exists a, b, c. rewrite app_nil_r.
    split; [apply (class_run upper Spec.isUpper 2 4 a inClass_upper); auto |].
    split; [apply (class_run digit Spec.isDigit 3 4 b inClass_digit); auto |].
    split; [apply (class_run upperDigit Spec.isUpperOrDigit 1 4 c inClass_upperDigit); auto |].
    reflexivity.
  - intros (a & b & c & Ha & Hb & Hc & ->).
    apply (class_run upper Spec.isUpper 2 4 a inClass_upper) in Ha as (Ha & Hla & Hma).
    apply (class_run digit Spec.isDigit 3 4 b inClass_digit) in Hb as (Hb & Hlb & Hmb).
    apply (class_run upperDigit Spec.isUpperOrDigit 1 4 c inClass_upperDigit)
      in Hc as (Hc & Hlc & Hmc).
    pose proof (proj2 (hyphen_run (lit "-")) eq_refl) as (Hd & Hld & Hmd).
    apply matchAt_Cls. exists a, (lit "-" ++ b ++ lit "-" ++ c).
    repeat split; try assumption.
    apply matchAt_Cls. exists (lit "-"), (b ++ lit "-" ++ c).
    repeat split; try assumption.
    apply matchAt_Cls. exists b, (lit "-" ++ c).
    repeat split; try assumption.
    apply matchAt_Cls. exists (lit "-"), c.
    repeat split; try assumption.
    apply matchAt_Cls. exists c, [].
    repeat split; try assumption. now rewrite app_nil_r.
Qed.

(** X1 — isValidSerialNumber accepts exactly the strings made of two to
    four capital letters, a hyphen, three or four digits, a hyphen and
    one to four capital letters or digits, and nothing else around. *)
Theorem isValidSerialNumber_shape (s : jsstring) :
  DeviceModel.isValidSerialNumber s = true <-> Spec.serialShape s.
Proof. exact (serial_pattern_iff s). Qed.

(** X2 — Every serial number isValidSerialNumber accepts has between 8
    and 14 code units, none of them white space. *)
Theorem isValidSerialNumber_length (s : jsstring) :
  DeviceModel.isValidSerialNumber s = true ->
  8 <= List.length s <= 14 /\ Forall (fun c => isWhiteSpace c = false) s.
Proof.
  intros H. apply serial_pattern_iff in H
    as (a & b & c & [Hla Ha] & [Hlb Hb] & [Hlc Hc] & ->).
  split.
  - rewrite !length_app. change (List.length (lit "-")) with 1. lia.
  - assert (Hws : forall x, Spec.isUpperOrDigit x \/ x = 45%N -> isWhiteSpace x = false).
    { intros x [[Hx | Hx] | ->]; [| | reflexivity];
        unfold Spec.isUpper, Spec.isDigit in Hx; unfold isWhiteSpace;
        repeat match goal with
        | |- context [(?p <=? x)%N] => destruct (N.leb_spec p x); try lia
        | |- context [(x <=? ?p)%N] => destruct (N.leb_spec x p); try lia
        | |- context [(x =? ?p)%N] => destruct (N.eqb_spec x p); try lia
        end; reflexivity. }
    rewrite Forall_forall in *. intros x Hx. apply Hws.
    repeat (apply in_app_or in Hx as [Hx | Hx]).
    + left. left. now apply Ha.
    + right. destruct Hx as [<- | []]. reflexivity.
    + left. right. now apply Hb.
    + right. destruct Hx as [<- | []]. reflexivity.
    + left. now apply Hc.
Qed.

Lemma isValidSerialNumber_length_witness :
  8 <= List.length (lit "GW-001-MAIN") <= 14.
Proof.
  apply (isValidSerialNumber_length (lit "GW-001-MAIN")). reflexivity.
Defined.

End SerialNumber.

Lemma trim_padding (l s r : jsstring) :
  forallb isWhiteSpace l = true ->
  forallb isWhiteSpace r = true ->
  trim (l ++ s ++ r) = trim s.
Proof.
  intros Hl Hr.
  destruct (trim_spec s) as (l' & r' & Hs & Hl' & Hr' & Hfirst & Hlast).
  rewrite Hs at 1.
  replace (l ++ (l' ++ trim s ++ r') ++ r) with ((l ++ l') ++ trim s ++ (r' ++ r))
    by (now rewrite <- !app_assoc).
  apply trim_unique; try assumption; rewrite forallb_app; now apply andb_true_iff.
Qed.

(** X3 — White space around a name does not count: isValidName gives
    the same answer for a name and for the name with white space added
    before and after it. *)
Theorem isValidName_padding (l s r : jsstring) :
  forallb isWhiteSpace l = true ->
  forallb isWhiteSpace r = true ->
  DeviceModel.isValidName (l ++ s ++ r) = DeviceModel.isValidName s.
Proof.
  intros Hl Hr. unfold DeviceModel.isValidName. now rewrite trim_padding.
Qed.

Lemma isValidName_padding_witness :
  DeviceModel.isValidName (lit "  " ++ lit "ab" ++ lit "   ")
  = DeviceModel.isValidName (lit "ab").
Proof.
  apply (isValidName_padding (lit "  ") (lit "ab") (lit "   ")); reflexivity.
Defined.

(** X4 — A name made of white space only, however long, is rejected by
    isValidName. *)
Theorem isValidName_blank (s : jsstring) :
  forallb isWhiteSpace s = true -> DeviceModel.isValidName s = false.
Proof.
  intros H. unfold DeviceModel.isValidName, trim, trimEnd.
  now rewrite (trimStart_all_ws s H).
Qed.

Lemma isValidName_blank_witness :
  DeviceModel.isValidName (lit "          ") = false.
Proof. apply (isValidName_blank (lit "          ")). reflexivity. Defined.

(** ** Status *)

Section StatusProperties.

Variable E : DeviceStatus.t.

Lemma distinct_neq :
  DeviceStatus.distinct E ->
  DeviceStatus.Online E <> DeviceStatus.Offline E
  /\ DeviceStatus.Online E <> DeviceStatus.Error E
  /\ DeviceStatus.Online E <> DeviceStatus.Maintenance E
  /\ DeviceStatus.Offline E <> DeviceStatus.Error E
  /\ DeviceStatus.Offline E <> DeviceStatus.Maintenance E
  /\ DeviceStatus.Error E <> DeviceStatus.Maintenance E.
Proof.
  unfold DeviceStatus.distinct. intros H.
  inversion H as [|? ? H1 H']; subst. inversion H' as [|? ? H2 H'']; subst.
  inversion H'' as [|? ? H3 _]; subst. simpl in *.
  repeat split; intros Heq; rewrite ?Heq in *; tauto.
Qed.

(** X5 — The text colour and the background colour of a status are
    always of the same palette: statusColor is text-P-600 and
    statusBgColor is bg-P-100 for one and the same P, whatever the
    status, known or not. *)
Theorem status_colors_same_palette (this : DeviceModel.t) :
  exists palette : string,
    DeviceModel.statusColor E this = lit "text-" ++ lit palette ++ lit "-600"
    /\ DeviceModel.statusBgColor E this = lit "bg-" ++ lit palette ++ lit "-100".
Proof.
  unfold DeviceModel.statusColor, DeviceModel.statusBgColor.
  destruct (string_eqb (DeviceModel.status this) (DeviceStatus.Online E));
    [exists "green"%string; split; reflexivity |].
  destruct (string_eqb (DeviceModel.status this) (DeviceStatus.Offline E));
    [exists "gray"%string; split; reflexivity |].
  destruct (string_eqb (DeviceModel.status this) (DeviceStatus.Error E));
    [exists "red"%string; split; reflexivity |].
  destruct (string_eqb (DeviceModel.status this) (DeviceStatus.Maintenance E));
    [exists "yellow"%string; split; reflexivity |].
  exists "gray"%string; split; reflexivity.
Qed.

Ltac status_cases this :=
  destruct (string_eqb (DeviceModel.status this) (DeviceStatus.Online E)) eqn:E1;
  destruct (string_eqb (DeviceModel.status this) (DeviceStatus.Offline E)) eqn:E2;
  destruct (string_eqb (DeviceModel.status this) (DeviceStatus.Error E)) eqn:E3;
  destruct (string_eqb (DeviceModel.status this) (DeviceStatus.Maintenance E)) eqn:E4;
  repeat match goal with
         | H : string_eqb _ _ = true |- _ => apply string_eqb_eq in H
         end.

(** X6 — When the four members of DeviceStatus are different values, a
    device is at most one of online, offline and needing attention, and
    it is one of them exactly when its status is one of the four. *)
Theorem status_flags_exclusive (this : DeviceModel.t) :
  DeviceStatus.distinct E ->
  (DeviceModel.isOnline E this = true ->
   DeviceModel.isOffline E this = false /\ DeviceModel.needsAttention E this = false)
  /\ (DeviceModel.isOffline E this = true ->
      DeviceModel.isOnline E this = false /\ DeviceModel.needsAttention E this = false)
  /\ (DeviceModel.needsAttention E this = true ->
      DeviceModel.isOnline E this = false /\ DeviceModel.isOffline E this = false)
  /\ (DeviceModel.isOnline E this || DeviceModel.isOffline E this
      || DeviceModel.needsAttention E this = true
      <-> In (DeviceModel.status this)
            [DeviceStatus.Online E; DeviceStatus.Offline E;
             DeviceStatus.Error E; DeviceStatus.Maintenance E]).
Proof.
  intros Hd. apply distinct_neq in Hd as (H1 & H2 & H3 & H4 & H5 & H6).
  unfold DeviceModel.isOnline, DeviceModel.isOffline, DeviceModel.needsAttention.
  assert (Hin : forall a b, string_eqb a b = false -> a <> b).
  { intros a b Hab Heq. apply string_eqb_eq in Heq. congruence. }
  status_cases this; simpl;
    repeat match goal with
           | H : string_eqb _ _ = false |- _ => apply Hin in H
           end;
    try congruence;
    (repeat split; try congruence; try discriminate; intros; try tauto;
     intuition congruence).
Qed.

(** X7 — With distinct status values, a device needs attention exactly
    when its status colour is the red or the yellow one, and it is
    online exactly when the colour is the green one. *)
Theorem needsAttention_iff_color (this : DeviceModel.t) :
  DeviceStatus.distinct E ->
  (DeviceModel.needsAttention E this = true
   <-> DeviceModel.statusColor E this = lit "text-red-600"
       \/ DeviceModel.statusColor E this = lit "text-yellow-600")
  /\ (DeviceModel.isOnline E this = true
      <-> DeviceModel.statusColor E this = lit "text-green-600").
Proof.
  intros Hd. apply distinct_neq in Hd as (H1 & H2 & H3 & H4 & H5 & H6).
  unfold DeviceModel.isOnline, DeviceModel.needsAttention, DeviceModel.statusColor.
  status_cases this; simpl; try congruence;
    (split; split; intros; try discriminate; auto;
     repeat match goal with H : _ \/ _ |- _ => destruct H end; discriminate).
Qed.

(** X8 — With distinct status values, the badge and the model agree on
    the background of every status but two: the styles of StatusBadge
    start with the model's statusBgColor exactly when the status is
    neither Offline (red in the badge, gray in the model) nor Error
    (gray in the badge, red in the model). *)
Theorem badge_agrees_with_model (this : DeviceModel.t) :
  DeviceStatus.distinct E ->
  startsWith (StatusBadge.getStatusStyles E (DeviceModel.status this))
    (DeviceModel.statusBgColor E this) = true
  <-> DeviceModel.status this <> DeviceStatus.Offline E
      /\ DeviceModel.status this <> DeviceStatus.Error E.
Proof.
  intros Hd. apply distinct_neq in Hd as (H1 & H2 & H3 & H4 & H5 & H6).
  unfold StatusBadge.getStatusStyles, DeviceModel.statusBgColor.
  assert (Hin : forall a b, string_eqb a b = false -> a <> b).
  { intros a b Hab Heq. apply string_eqb_eq in Heq. congruence. }
  status_cases this;
    repeat match goal with
           | H : string_eqb _ _ = false |- _ => apply Hin in H
           end;
    try congruence;
    (split; [intros Hs; try (vm_compute in Hs; discriminate); split; congruence
            | intros [Ha Hb]; try congruence; reflexivity]).
Qed.

End StatusProperties.

Lemma status_flags_exclusive_witness :
  DeviceModel.isOffline Fixtures.statusValues (DeviceModel.new Fixtures.sensor) = false
  /\ DeviceModel.needsAttention Fixtures.statusValues
       (DeviceModel.new Fixtures.sensor) = false.
Proof.
  apply (status_flags_exclusive Fixtures.statusValues (DeviceModel.new Fixtures.sensor)).
  - unfold DeviceStatus.distinct. simpl.
    repeat constructor; simpl; intuition discriminate.
  - reflexivity.
Defined.

Lemma needsAttention_iff_color_witness :
  DeviceModel.isOnline Fixtures.statusValues (DeviceModel.new Fixtures.sensor) = true.
Proof.
  apply (needsAttention_iff_color Fixtures.statusValues (DeviceModel.new Fixtures.sensor)).
  - unfold DeviceStatus.distinct. simpl.
    repeat constructor; simpl; intuition discriminate.
  - reflexivity.
Defined.

Lemma badge_agrees_with_model_witness :
  startsWith
    (StatusBadge.getStatusStyles Fixtures.statusValues
       (DeviceModel.status (DeviceModel.new Fixtures.sensor)))
    (DeviceModel.statusBgColor Fixtures.statusValues (DeviceModel.new Fixtures.sensor))
  = true.
Proof.
  apply (badge_agrees_with_model Fixtures.statusValues (DeviceModel.new Fixtures.sensor)).
  - unfold DeviceStatus.distinct. simpl.
    repeat constructor; simpl; intuition discriminate.
  - split; discriminate.
Defined.

(** X9 — For a device that was seen, lastSeenFormatted is "Just now" or
    names a count that fits its unit: 1 to 59 minutes, 1 to 23 hours, or
    at least one day; it never shows a zero count or 60 minutes. *)
Theorem lastSeenFormatted_range (now seen : Z) (this : DeviceModel.t) :
  DeviceModel.lastSeenAt this = Some seen ->
  Spec.relativeText (DeviceModel.lastSeenFormatted now this).
Proof.
  intros Hseen. unfold DeviceModel.lastSeenFormatted, Spec.relativeText.
  rewrite Hseen. cbv zeta. set (e := (now - seen)%Z).
  set (m := (e / 60000)%Z). set (h := (m / 60)%Z). set (d := (h / 24)%Z).
  destruct (Z.gtb_spec d 0) as [Hd|Hd].
  - right. right. right. exists d. split; [lia |].
    apply (plural_suffix d "day"%string). lia.
  - destruct (Z.gtb_spec h 0) as [Hh|Hh].
    + right. right. left. exists h. split.
      * subst d. Z.div_mod_to_equations. lia.
      * apply (plural_suffix h "hour"%string). lia.
    + destruct (Z.gtb_spec m 0) as [Hm|Hm].
      * right. left. exists m. split.
        -- subst h. Z.div_mod_to_equations. lia.
        -- apply (plural_suffix m "minute"%string). lia.
      * now left.
Qed.

Lemma lastSeenFormatted_range_witness :
  Spec.relativeText
    (DeviceModel.lastSeenFormatted 1700003600000 (DeviceModel.new Fixtures.sensor)).
Proof.
  apply (lastSeenFormatted_range 1700003600000 1700000000000
           (DeviceModel.new Fixtures.sensor)).
  reflexivity.
Defined.

(** * Further properties of the view model *)

Lemma substring_trans (a b c : jsstring) :
  Spec.substring a b -> Spec.substring b c -> Spec.substring a c.
Proof.
  intros (l1 & r1 & ->) (l2 & r2 & ->).
  exists (l2 ++ l1), (r1 ++ r2). now rewrite <- !app_assoc.
Qed.

Lemma filter_subsequence_imp {A} (f g : A -> bool) (l : list A) :
  (forall x, f x = true -> g x = true) ->
  Spec.subsequence (List.filter f l) (List.filter g l).
Proof.
  intros Hfg. induction l as [|x l IH]; simpl; [constructor |].
  destruct (f x) eqn:Ef.
  - rewrite (Hfg x Ef). now constructor.
  - destruct (g x); [now constructor | exact IH].
Qed.

Lemma filter_length_le {A} (f : A -> bool) (l : list A) :
  List.length (List.filter f l) <= List.length l.
Proof.
  induction l as [|x l IH]; simpl; [lia |]. destruct (f x); simpl; lia.
Qed.

Section MoreViewModelProperties.

Import Generated ViewModel.

Variable toLowerCase : jsstring -> jsstring.
Variable Client : Type.
Variable getDevices : Client -> option (list Device).
Variable execute : Mutation -> Client -> Result unit * Client.
Variable refetch : Client -> Result unit * Client.

(** X10 — Typing more narrows the search: when the lowercased term t1
    occurs inside the lowercased term t2, every device that matches t2
    matches t1, and the devices kept for t2 are a subsequence of the
    devices kept for t1. *)
Theorem matchesSearch_narrows (t1 t2 : jsstring) :
  Spec.substring (toLowerCase t1) (toLowerCase t2) ->
  (forall d, DeviceModel.matchesSearch toLowerCase d t2 = true ->
             DeviceModel.matchesSearch toLowerCase d t1 = true)
  /\ (forall ds,
        Spec.subsequence
          (List.filter (fun d => DeviceModel.matchesSearch toLowerCase d t2) ds)
          (List.filter (fun d => DeviceModel.matchesSearch toLowerCase d t1) ds)).
Proof.
  intros Hsub.
  assert (Hinc : forall s, includes s (toLowerCase t2) = true ->
                           includes s (toLowerCase t1) = true).
  { intros s H. apply includes_spec. apply includes_spec in H.
    exact (substring_trans _ _ _ Hsub H). }
  assert (Hd : forall d, DeviceModel.matchesSearch toLowerCase d t2 = true ->
                         DeviceModel.matchesSearch toLowerCase d t1 = true).
  { intros d. unfold DeviceModel.matchesSearch. cbv zeta.
    rewrite !orb_true_iff. intros [[[H|H]|H]|H].
    - left. left. left. now apply Hinc.
    - left. left. right. now apply Hinc.
    - left. right. destruct (DeviceModel.location d); [now apply Hinc | discriminate].
    - right. now apply Hinc. }
  split; [exact Hd |]. intros ds. now apply filter_subsequence_imp.
Qed.

(** X11 — selectedDevice, when present, is a device of the list whose
    id is the non-empty selectedDeviceId; it is absent exactly when
    nothing is selected, the selected id is the empty string, or no
    device of the list has the selected id. *)
Theorem selectedDevice_spec (w : World Client) :
  (forall d, selectedDevice getDevices w = Some d ->
             In d (devices getDevices w)
             /\ selectedDeviceId w = Some (DeviceModel.id d)
             /\ DeviceModel.id d <> [])
  /\ (selectedDevice getDevices w = None
      <-> selectedDeviceId w = None
          \/ selectedDeviceId w = Some []
          \/ exists sid, selectedDeviceId w = Some sid
                         /\ forall d, In d (devices getDevices w) ->
                                      DeviceModel.id d <> sid).
Proof.
  unfold selectedDevice. destruct (selectedDeviceId w) as [[|c sid]|]; cbn [truthy].
  - split; [discriminate |]. split; auto.
  - split.
    + intros d H. apply find_some in H as [Hin Heq].
      apply string_eqb_eq in Heq. rewrite Heq. repeat split; [assumption | discriminate].
    + split.
      * intros H. right. right. exists (c :: sid). split; [reflexivity |].
        intros d Hin Heq. apply (find_none _ _ H) in Hin.
        rewrite Heq, string_eqb_refl in Hin. discriminate.
      * intros [H | [H | (sid' & H & Hall)]]; try discriminate.
        injection H as <-.
        destruct (find _ (devices getDevices w)) as [d|] eqn:Ef; [| reflexivity].
        apply find_some in Ef as [Hin Heq]. apply string_eqb_eq in Heq.
        now destruct (Hall d Hin).
  - split; [discriminate |]. split; auto.
Qed.

(** X12 — Selecting a listed device by its non-empty id makes
    selectedDevice a device with that id, and changes neither the search
    term, nor the client, nor the list shown; selecting null leaves no
    selected device. *)
Theorem selectDevice_then_selected (d : DeviceModel.t) (w : World Client) :
  In d (devices getDevices w) ->
  DeviceModel.id d <> [] ->
  let w' := snd (selectDevice (Some (DeviceModel.id d)) w) in
  (exists d', selectedDevice getDevices w' = Some d'
              /\ DeviceModel.id d' = DeviceModel.id d)
  /\ searchTerm w' = searchTerm w /\ client w' = client w /\ calls w' = calls w
  /\ filteredDevices toLowerCase getDevices w' = filteredDevices toLowerCase getDevices w
  /\ selectedDevice getDevices (snd (selectDevice None w)) = None.
Proof.
  intros Hin Hid. cbv zeta.
  unfold selectDevice, setSelectedDeviceId, selectedDevice. cbn [snd selectedDeviceId].
  split; [| repeat split].
  destruct (DeviceModel.id d) as [|c sid] eqn:Eid; [congruence |]. cbn [truthy].
  match goal with |- context [find ?f ?l] => destruct (find f l) as [d'|] eqn:Ef end.
  - exists d'. split; [reflexivity |]. apply find_some in Ef as [_ Heq].
    now apply string_eqb_eq in Heq.
  - apply (find_none _ _ Ef) in Hin. rewrite Eid, string_eqb_refl in Hin. discriminate.
Qed.

(** X13 — Deleting a device other than the selected one keeps the
    selection: after a successful deleteDevice(id) with selectedDeviceId
    different from id, selectedDeviceId is what it was. *)
Theorem deleteDevice_other_keeps_selection (deviceId : jsstring) (w : World Client) :
  fst (execute (DeleteDeviceCall deviceId (lit "Device:" ++ deviceId)) (client w)) = Ok tt ->
  selectedDeviceId w <> Some deviceId ->
  fst (deleteDevice execute deviceId w) = Ok tt
  /\ selectedDeviceId (snd (deleteDevice execute deviceId w)) = selectedDeviceId w.
Proof.
  intros Hok Hsel.
  unfold deleteDevice, try_catch, bind, when, throw, ret, mutation, console_error,
    setSelectedDeviceId, strict_eq.
  destruct (execute (DeleteDeviceCall deviceId (lit "Device:" ++ deviceId)) (client w))
    as [[[]|e] c'] eqn:Ex; cbn [fst snd] in *; try discriminate.
  destruct (selectedDeviceId w) as [sid|] eqn:Es; [| now split].
  destruct (string_eqb sid deviceId) eqn:Eq; [| now split].
  apply string_eqb_eq in Eq. congruence.
Qed.

(** X14 — createDevice, updateDevice and the refetch never change the
    selection or the search term, whatever was sent and however the
    collaborator answered; deleteDevice never changes the search term;
    the refetch sends no mutation. *)
Theorem actions_keep_local_state (w : World Client) :
  (forall input,
     selectedDeviceId (snd (createDevice execute input w)) = selectedDeviceId w
     /\ searchTerm (snd (createDevice execute input w)) = searchTerm w)
  /\ (forall input,
        selectedDeviceId (snd (updateDevice execute input w)) = selectedDeviceId w
        /\ searchTerm (snd (updateDevice execute input w)) = searchTerm w)
  /\ (forall deviceId,
        searchTerm (snd (deleteDevice execute deviceId w)) = searchTerm w)
  /\ (selectedDeviceId (snd (handleRefetch refetch w)) = selectedDeviceId w
      /\ searchTerm (snd (handleRefetch refetch w)) = searchTerm w
      /\ calls (snd (handleRefetch refetch w)) = calls w).
Proof.
  split; [| split; [| split]].
  - intros input.
    unfold createDevice, try_catch, bind, when, throw, ret, mutation, console_error.
    destruct (DeviceModel.isValidName _), (DeviceModel.isValidSerialNumber _),
      (DeviceModel.isValidFirmwareVersion _); cbn [negb fst snd];
      try (destruct (execute _ _) as [[[]|e] c']); now split.
  - intros input.
    unfold updateDevice, try_catch, bind, when, throw, ret, mutation, console_error.
    destruct (present_and_not DeviceModel.isValidName (update_name input)),
      (present_and_not DeviceModel.isValidFirmwareVersion
         (update_firmwareVersion input)); cbn [fst snd];
      try (destruct (execute _ _) as [[[]|e] c']); now split.
  - intros deviceId.
    unfold deleteDevice, try_catch, bind, when, throw, ret, mutation, console_error,
      setSelectedDeviceId.
    destruct (execute _ _) as [[[]|e] c']; [| reflexivity].
    now destruct (strict_eq _ _).
  - unfold handleRefetch, refetchQuery, try_catch, bind, throw, console_error.
    destruct (refetch (client w)) as [[[]|e] c']; now repeat split.
Qed.

(** X15 — Every rejection is logged by the hook with the error it
    passes on: when createDevice, updateDevice, deleteDevice or the
    refetch rejects with an error, validation errors included, the last
    entry of the console is that very error under the label of the
    action. *)
Theorem rejections_are_logged (w : World Client) :
  let logged (label : string) (out : Result unit * World Client) :=
    forall e, fst out = Throw e ->
              exists earlier, console (snd out) = earlier ++ [(lit label, e)] in
  (forall input, logged "Failed to create device:"%string (createDevice execute input w))
  /\ (forall input,
        logged "Failed to update device:"%string (updateDevice execute input w))
  /\ (forall deviceId,
        logged "Failed to delete device:"%string (deleteDevice execute deviceId w))
  /\ logged "Failed to refetch devices:"%string (handleRefetch refetch w).
Proof.
  cbv zeta. split; [| split; [| split]].
  - intros input.
    unfold createDevice, try_catch, bind, when, throw, ret, mutation, console_error.
    destruct (DeviceModel.isValidName _), (DeviceModel.isValidSerialNumber _),
      (DeviceModel.isValidFirmwareVersion _); cbn [negb fst snd console];
      try (destruct (execute _ _) as [[[]|e0] c']); cbn [fst snd console];
      intros e He; try discriminate; injection He as <-;
      exists (console w); reflexivity.
  - intros input.
    unfold updateDevice, try_catch, bind, when, throw, ret, mutation, console_error.
    destruct (present_and_not DeviceModel.isValidName (update_name input)),
      (present_and_not DeviceModel.isValidFirmwareVersion
         (update_firmwareVersion input));
      cbn [fst snd console];
      try (destruct (execute _ _) as [[[]|e0] c']); cbn [fst snd console];
      intros e He; try discriminate; injection He as <-;
      exists (console w); reflexivity.
  - intros deviceId.
    unfold deleteDevice, try_catch, bind, when, throw, ret, mutation, console_error,
      setSelectedDeviceId.
    destruct (execute _ _) as [[[]|e0] c'].
    + destruct (strict_eq _ _); cbn [fst snd]; intros e He; discriminate.
    + cbn [fst snd console]. intros e He. injection He as <-.
      exists (console w). reflexivity.
  - unfold handleRefetch, refetchQuery, try_catch, bind, throw, console_error.
    destruct (refetch (client w)) as [[[]|e0] c']; cbn [fst snd console];
      intros e He; try discriminate; injection He as <-;
      exists (console w); reflexivity.
Qed.

End MoreViewModelProperties.

Lemma matchesSearch_narrows_witness :
  DeviceModel.matchesSearch Fixtures.asciiLower (DeviceModel.new Fixtures.gateway)
    (lit "Gate") = true.
Proof.
  apply (proj1 (matchesSearch_narrows Fixtures.asciiLower (lit "Gate") (lit "GATEWAY")
                  ltac:(exists [], (lit "way"); reflexivity))).
  reflexivity.
Defined.

Lemma rejections_are_logged_witness :
  exists earlier,
    ViewModel.console
      (snd (ViewModel.updateDevice Fixtures.storeExecute
              (Fixtures.updateInput "9" (Some (lit "Lost Sensor")) None)
              (Fixtures.world None [])))
    = earlier ++ [(lit "Failed to update device:", mkError (lit "Device not found"))].
Proof.
  apply (rejections_are_logged Fixtures.Store Fixtures.storeExecute
           (fun st => (Ok tt, st)) (Fixtures.world None [])).
  reflexivity.
Defined.

Lemma selectedDevice_spec_witness :
  In (DeviceModel.new Fixtures.gateway)
    (ViewModel.devices Fixtures.storeDevices (Fixtures.world (Some (lit "2")) [])).
Proof.
  apply (proj1 (selectedDevice_spec Fixtures.Store Fixtures.storeDevices
                  (Fixtures.world (Some (lit "2")) []))
           (DeviceModel.new Fixtures.gateway)).
  reflexivity.
Defined.

Lemma selectDevice_then_selected_witness :
  exists d',
    ViewModel.selectedDevice Fixtures.storeDevices
      (snd (ViewModel.selectDevice (Some (lit "2")) (Fixtures.world None []))) = Some d'
    /\ DeviceModel.id d' = lit "2".
Proof.
  apply (selectDevice_then_selected Fixtures.asciiLower Fixtures.Store
           Fixtures.storeDevices (DeviceModel.new Fixtures.gateway)
           (Fixtures.world None [])).
  - right. left. reflexivity.
  - discriminate.
Defined.

Lemma deleteDevice_other_keeps_selection_witness :
  ViewModel.selectedDeviceId
    (snd (ViewModel.deleteDevice Fixtures.storeExecute (lit "2")
            (Fixtures.world (Some (lit "1")) [])))
  = Some (lit "1").
Proof.
  apply (deleteDevice_other_keeps_selection Fixtures.Store Fixtures.storeExecute
           (lit "2") (Fixtures.world (Some (lit "1")) [])).
  - reflexivity.
  - discriminate.
Defined.

(** * Properties of the form and of the view *)

Lemma newErrors_nil (device : option DeviceModel.t) (fd : DeviceForm.FormData) :
  DeviceForm.newErrors device fd = []
  <-> DeviceModel.isValidName (DeviceForm.form_name fd) = true
      /\ (device = None ->
          DeviceModel.isValidSerialNumber (DeviceForm.form_serialNumber fd) = true)
      /\ DeviceModel.isValidFirmwareVersion (DeviceForm.form_firmwareVersion fd) = true.
Proof.
  unfold DeviceForm.newErrors.
  destruct (DeviceModel.isValidName _), (DeviceModel.isValidSerialNumber _),
    (DeviceModel.isValidFirmwareVersion _), device; simpl;
    split; try discriminate; try (intros (? & ? & ?); discriminate);
    try (intros _; repeat split; intros; congruence).
  all: intros (_ & H & _); specialize (H eq_refl); discriminate.
Qed.

(** X16 — An edit form that is submitted untouched sends the device's
    own values: for a device with a non-empty status, the update input
    built from the initial form data carries the id, name, status and
    firmware version of the device, and its location with the empty
    string and null treated alike. *)
Theorem form_round_trip (Sensor Online : jsstring) (d : DeviceModel.t) :
  DeviceModel.status d <> [] ->
  DeviceForm.updateData d (DeviceForm.initialFormData Sensor Online (Some d))
  = {| Generated.update_id := DeviceModel.id d;
       Generated.update_name := Some (DeviceModel.name d);
       Generated.update_status := Some (DeviceModel.status d);
       Generated.update_firmwareVersion := Some (DeviceModel.firmwareVersion d);
       Generated.update_location := DeviceModel.location d |}.
Proof.
  intros Hs. unfold DeviceForm.updateData, DeviceForm.initialFormData. simpl.
  f_equal.
  - f_equal. now destruct (DeviceModel.name d).
  - f_equal. destruct (DeviceModel.status d); [congruence | reflexivity].
  - f_equal. now destruct (DeviceModel.firmwareVersion d).
  - unfold DeviceModel.location.
    destruct (Generated.location (DeviceModel.data d)) as [[|c l]|]; reflexivity.
Qed.

Lemma form_round_trip_witness :
  Generated.update_location
    (DeviceForm.updateData (DeviceModel.new Fixtures.gateway)
       (DeviceForm.initialFormData (lit "SENSOR") (lit "ONLINE")
          (Some (DeviceModel.new Fixtures.gateway))))
  = None.
Proof.
  rewrite (form_round_trip (lit "SENSOR") (lit "ONLINE")
             (DeviceModel.new Fixtures.gateway)); [reflexivity | discriminate].
Defined.

Section ViewProperties.

Import Generated ViewModel DeviceTableView.

Variable toLowerCase : jsstring -> jsstring.
Variable Client : Type.
Variable getDevices : Client -> option (list Device).
Variable execute : Mutation -> Client -> Result unit * Client.

(** X17 — The footer never shows more devices than there are: the
    number of filtered devices is at most the number of devices, and the
    two are equal when the search term is empty. *)
Theorem footer_counts (s : ViewWorld Client) :
  fst (footer toLowerCase getDevices s) <= snd (footer toLowerCase getDevices s)
  /\ (searchTerm (hook s) = [] ->
      fst (footer toLowerCase getDevices s) = snd (footer toLowerCase getDevices s)).
Proof.
  unfold footer, filteredDevices. cbn [fst snd]. split.
  - destruct (truthy (searchTerm (hook s))); [apply filter_length_le | lia].
  - now intros ->.
Qed.

(** X18 — The table invites to add a first device only when there is
    none: its body is the empty row with the add-your-first-device
    message exactly when the device list and the search term are both
    empty, and the empty row with the no-match message exactly when the
    term is non-empty and no device matches it. *)
Theorem table_empty_message (now : Z) (s : ViewWorld Client) :
  (table toLowerCase getDevices now s
   = DeviceTable.EmptyRow (lit "No devices found. Add your first device!")
   <-> devices getDevices (hook s) = [] /\ searchTerm (hook s) = [])
  /\ (table toLowerCase getDevices now s
      = DeviceTable.EmptyRow (lit "No devices found matching your search.")
      <-> searchTerm (hook s) <> []
          /\ forall d, In d (devices getDevices (hook s)) ->
               DeviceModel.matchesSearch toLowerCase d (searchTerm (hook s)) = false).
Proof.
  unfold table, DeviceTable.body, emptyMessage, filteredDevices.
  destruct (searchTerm (hook s)) as [|c term] eqn:Et; cbn [truthy].
  - destruct (devices getDevices (hook s)) as [|d ds]; split; split;
      try discriminate; try (now intros [? ?]); try (intros [? _]; congruence); auto.
  - match goal with |- context [List.filter ?f ?l] =>
      destruct (List.filter f l) as [|d ds] eqn:Ef end.
    + split; split; try discriminate; try (intros [_ ?]; discriminate).
      * intros _. split; [discriminate |]. intros d Hin.
        destruct (DeviceModel.matchesSearch toLowerCase d (c :: term)) eqn:Em;
          [| reflexivity].
        assert (Hd : In d []) by (rewrite <- Ef; apply filter_In; now split).
        destruct Hd.
      * reflexivity.
    + split; split; try discriminate; try (intros [_ ?]; discriminate).
      intros [_ Hall]. rewrite filter_none in Ef by exact Hall. discriminate.
Qed.

(** X19 — A row of a listed device is highlighted exactly when the
    device's id is the selected id and is not the empty string. *)
Theorem row_highlighted_iff (now : Z) (d : DeviceModel.t) (w : World Client) :
  In d (devices getDevices w) ->
  DeviceTable.highlighted (DeviceTable.row now (selectedDevice getDevices w) d) = true
  <-> selectedDeviceId w = Some (DeviceModel.id d) /\ DeviceModel.id d <> [].
Proof.
  intros Hin. cbn [DeviceTable.row DeviceTable.highlighted].
  unfold DeviceTable.isSelected, selectedDevice.
  destruct (selectedDeviceId w) as [[|c sid]|]; cbn [truthy].
  - split; [discriminate | intros [H Hne]; congruence].
  - match goal with |- context [find ?f ?l] => destruct (find f l) as [d'|] eqn:Ef end.
    + apply find_some in Ef as [_ Heq]. apply string_eqb_eq in Heq.
      rewrite string_eqb_eq, Heq. split.
      * intros <-. split; [reflexivity | discriminate].
      * intros [H _]. now injection H.
    + split; [discriminate |]. intros [H _]. injection H as H.
      apply (find_none _ _ Ef) in Hin. rewrite H, string_eqb_refl in Hin. discriminate.
  - split; [discriminate | intros [H _]; discriminate].
Qed.

(** X20 — handleFormSubmit never rejects.  When the view model call
    resolves, the form is closed and no device is being edited; when it
    rejects, showForm and editingDevice are left as they were and the
    error is logged once more, under "Failed to save device:". *)
Theorem handleFormSubmit_outcomes (data : CreateDeviceInput + UpdateDeviceInput)
    (s : ViewWorld Client) :
  let inner := match data with
               | inl create => createDevice execute create (hook s)
               | inr update => updateDevice execute update (hook s)
               end in
  let out := handleFormSubmit execute data s in
  fst out = Ok tt
  /\ deviceToDelete (snd out) = deviceToDelete s
  /\ match fst inner with
     | Ok _ =>
         showForm (snd out) = false /\ editingDevice (snd out) = None
         /\ hook (snd out) = snd inner
     | Throw e =>
         showForm (snd out) = showForm s /\ editingDevice (snd out) = editingDevice s
         /\ calls (hook (snd out)) = calls (snd inner)
         /\ console (hook (snd out))
            = console (snd inner) ++ [(lit "Failed to save device:", e)]
     end.
Proof.
  cbv zeta. unfold handleFormSubmit, try_catch, bind, inHook, setShowForm,
    setEditingDevice.
  destruct data as [create | update].
  - destruct (createDevice execute create (hook s)) as [[[]|e] h];
      cbn [fst snd showForm editingDevice deviceToDelete hook console_error calls console];
      repeat split.
  - destruct (updateDevice execute update (hook s)) as [[[]|e] h];
      cbn [fst snd showForm editingDevice deviceToDelete hook console_error calls console];
      repeat split.
Qed.

(** X21 — handleDelete never rejects, sends the delete mutation for the
    id and closes the confirmation in both outcomes; a failed delete is
    logged twice under the same label, once by the view model and once
    by the view. *)
Theorem handleDelete_outcomes (deviceId : jsstring) (s : ViewWorld Client) :
  let sent := DeleteDeviceCall deviceId (lit "Device:" ++ deviceId) in
  let out := handleDelete execute deviceId s in
  fst out = Ok tt
  /\ deviceToDelete (snd out) = None
  /\ showForm (snd out) = showForm s
  /\ editingDevice (snd out) = editingDevice s
  /\ calls (hook (snd out)) = calls (hook s) ++ [sent]
  /\ console (hook (snd out))
     = console (hook s)
       ++ match fst (execute sent (client (hook s))) with
          | Ok _ => []
          | Throw e => [(lit "Failed to delete device:", e);
                        (lit "Failed to delete device:", e)]
          end.
Proof.
  cbv zeta. unfold handleDelete, try_catch, bind, inHook, setDeviceToDelete.
  unfold deleteDevice, try_catch, bind, when, throw, ret, mutation, console_error,
    setSelectedDeviceId.
  destruct (execute (DeleteDeviceCall deviceId (lit "Device:" ++ deviceId))
              (client (hook s))) as [[[]|e] c'].
  - destruct (strict_eq (selectedDeviceId (hook s)) deviceId);
      cbn [fst snd showForm editingDevice deviceToDelete hook calls console];
      rewrite app_nil_r; repeat split.
  - cbn [fst snd showForm editingDevice deviceToDelete hook calls console].
    rewrite <- app_assoc. repeat split.
Qed.

(** X22 — A form with a field that fails validation is not submitted:
    submitForm records the errors of validateForm and changes nothing
    else, so no mutation is sent, nothing is logged and the form stays
    as it is. *)
Theorem submitForm_invalid (fd : DeviceForm.FormData) (s : ViewWorld Client) :
  DeviceForm.newErrors (editingDevice s) fd <> [] ->
  let out := submitForm execute fd s in
  fst out = Ok tt
  /\ errors (snd out) = DeviceForm.newErrors (editingDevice s) fd
  /\ showForm (snd out) = showForm s
  /\ editingDevice (snd out) = editingDevice s
  /\ deviceToDelete (snd out) = deviceToDelete s
  /\ hook (snd out) = hook s.
Proof.
  intros Hne. cbv zeta.
  unfold submitForm, DeviceForm.handleSubmit, DeviceForm.validateForm, bind, ret,
    DeviceTableView.setErrors.
  destruct (DeviceForm.newErrors (editingDevice s) fd) as [|e es] eqn:En;
    [congruence |].
  cbn. repeat split.
Qed.

(** X23 — A form that passes validateForm passes the validation of the
    view model too: submitForm sends exactly one mutation, the update of
    the edited device or the creation, built from the form data; it
    never rejects, and afterwards the form is closed and no device is
    being edited, also when the mutation failed. *)
Theorem submitForm_valid (fd : DeviceForm.FormData) (s : ViewWorld Client) :
  DeviceForm.newErrors (editingDevice s) fd = [] ->
  let out := submitForm execute fd s in
  let sent := match editingDevice s with
              | Some d => UpdateDeviceCall (DeviceForm.updateData d fd)
              | None => CreateDeviceCall (DeviceForm.createData fd)
              end in
  fst out = Ok tt
  /\ calls (hook (snd out)) = calls (hook s) ++ [sent]
  /\ showForm (snd out) = false
  /\ editingDevice (snd out) = None
  /\ errors (snd out) = [].
Proof.
  intros Hnil. cbv zeta.
  pose proof (proj1 (newErrors_nil _ _) Hnil) as (Hname & Hserial & Hversion).
  unfold submitForm, DeviceForm.handleSubmit, DeviceForm.validateForm, bind, ret,
    DeviceTableView.setErrors, try_catch, closeForm, handleFormSubmit, try_catch,
    bind, inHook, setShowForm, setEditingDevice.
  rewrite Hnil. cbn [List.length Nat.eqb negb fst snd editingDevice hook].
  destruct (editingDevice s) as [d|] eqn:Ed.
  - unfold updateDevice, try_catch, bind, when, throw, ret, mutation,
      ViewModel.console_error, present_and_not.
    cbn [DeviceForm.updateData update_name update_firmwareVersion].
    rewrite Hname, Hversion, !andb_false_r.
    cbn [fst snd hook].
    destruct (execute _ (client (hook s))) as [[[]|e] c'];
      cbn [fst snd showForm editingDevice errors hook calls]; repeat split.
  - specialize (Hserial eq_refl).
    unfold createDevice, try_catch, bind, when, throw, ret, mutation,
      ViewModel.console_error.
    cbn [DeviceForm.createData create_name create_serialNumber create_firmwareVersion].
    rewrite Hname, Hserial, Hversion.
    cbn [negb fst snd hook].
    destruct (execute _ (client (hook s))) as [[[]|e] c'];
      cbn [fst snd showForm editingDevice errors hook calls]; repeat split.
Qed.

End ViewProperties.

Lemma footer_counts_witness :
  fst (DeviceTableView.footer Fixtures.asciiLower Fixtures.storeDevices
         (Fixtures.view None None None []))
  = snd (DeviceTableView.footer Fixtures.asciiLower Fixtures.storeDevices
           (Fixtures.view None None None [])).
Proof.
  apply (proj2 (footer_counts Fixtures.asciiLower Fixtures.Store Fixtures.storeDevices
                  (Fixtures.view None None None []))).
  reflexivity.
Defined.

Lemma row_highlighted_iff_witness :
  DeviceTable.highlighted
    (DeviceTable.row 0
       (ViewModel.selectedDevice Fixtures.storeDevices
          (Fixtures.world (Some (lit "2")) []))
       (DeviceModel.new Fixtures.gateway)) = true.
Proof.
  apply (row_highlighted_iff Fixtures.Store Fixtures.storeDevices 0
           (DeviceModel.new Fixtures.gateway) (Fixtures.world (Some (lit "2")) [])).
  - right. left. reflexivity.
  - split; [reflexivity | discriminate].
Defined.

Lemma submitForm_invalid_witness :
  let out := DeviceTableView.submitForm Fixtures.storeExecute
               (Fixtures.formData "ab" "TS-001-A" "1.0" "")
               (Fixtures.view None None None []) in
  List.map fst (DeviceTableView.errors (snd out)) = [lit "name"; lit "firmwareVersion"]
  /\ DeviceTableView.showForm (snd out) = true
  /\ ViewModel.calls (DeviceTableView.hook (snd out)) = [].
Proof.
  destruct (submitForm_invalid Fixtures.Store Fixtures.storeExecute
              (Fixtures.formData "ab" "TS-001-A" "1.0" "")
              (Fixtures.view None None None []) ltac:(discriminate))
    as (_ & He & Hs & _ & _ & Hh).
  cbv zeta. rewrite He, Hs, Hh. repeat split.
Defined.

Lemma submitForm_valid_witness :
  let unknown := DeviceModel.new
    {| Generated.id := lit "9"; Generated.name := lit "Lost Sensor";
       Generated.serialNumber := lit "TS-009-A"; Generated.type := lit "SENSOR";
       Generated.status := lit "ONLINE"; Generated.lastSeenAt := None;
       Generated.firmwareVersion := lit "1.0.0"; Generated.location := None;
       Generated.createdAt := 0; Generated.updatedAt := 0 |} in
  let out := DeviceTableView.submitForm Fixtures.storeExecute
               (Fixtures.formData "Lost Sensor" "" "1.0.1" "")
               (Fixtures.view (Some unknown) None None []) in
  DeviceTableView.showForm (snd out) = false
  /\ List.map fst (ViewModel.console (DeviceTableView.hook (snd out)))
     = [lit "Failed to update device:"; lit "Failed to save device:"].
Proof.
  cbv zeta. split.
  - apply (submitForm_valid Fixtures.Store Fixtures.storeExecute
             (Fixtures.formData "Lost Sensor" "" "1.0.1" "")). reflexivity.
  - reflexivity.
Defined.
